(** * Heart Disease Risk Calculator: a shallow embedding of [streamlit_app.py]

    The script is a Streamlit page: it loads a pickled classifier once per
    process, reads thirteen sidebar widgets, assembles them into a one-row
    data frame, and, when the "Assess Risk" button is pressed, shows the
    predicted probability with a thresholded recommendation.

    The embedding follows the script top to bottom.  Python strings are
    sequences of code points below 256 (every label of the script is ASCII,
    the heart emoji of the title apart, which is left out of the two title
    strings); Python ints are [Z]; Python and numpy floats are binary64
    values, Rocq's primitive [float]; exceptions are a result type; the
    calls that draw on the page append to a list of page elements; the
    process-wide resource cache and the object store are explicit state. *)

From Stdlib Require Import ZArith List String Ascii Bool Lia Floats Permutation.
From Stdlib Require Import DecimalString DecimalPos DecimalZ.
Import ListNotations.

Set Warnings "-inexact-float".

Local Open Scope string_scope.
Local Open Scope list_scope.
Local Open Scope Z_scope.

(** ** Exceptions *)

Inductive exception : Type :=
| FileNotFoundError
| UnpicklingError
| ValueError
| IndexError
| OverflowError
| AttributeError
| StreamlitAPIException
| EstimatorError (msg : string).

Inductive result (A : Type) : Type :=
| Ok (a : A)
| Raise (e : exception).

Arguments Ok {A} a.
Arguments Raise {A} e.

Definition rbind {A B} (r : result A) (k : A -> result B) : result B :=
  match r with
  | Ok a => k a
  | Raise e => Raise e
  end.

(** ** Python list indexing *)

Module PyList.

(** [xs[-1]]: the last item, [IndexError] on an empty list. *)
Fixpoint index_last {A} (xs : list A) : result A :=
  match xs with
  | [] => Raise IndexError
  | [x] => Ok x
  | _ :: xs' => index_last xs'
  end.

(** [xs[i]] for a non-negative position. *)
Definition index {A} (xs : list A) (i : nat) : result A :=
  match nth_error xs i with
  | Some x => Ok x
  | None => Raise IndexError
  end.

End PyList.

(** ** Python string operations used by the collector *)

Module PyStr.

(** [s.split(sep)] for a one-character separator, as the script calls it
    with ["("]: the pieces between the separators, never an empty list. *)
Fixpoint split (sep : ascii) (s : string) : list string :=
  match s with
  | EmptyString => [EmptyString]
  | String c s' =>
      if Ascii.eqb c sep then EmptyString :: split sep s'
      else match split sep s' with
           | p :: ps => String c p :: ps
           | [] => [String c EmptyString]
           end
  end.

Fixpoint mem (c : ascii) (chars : string) : bool :=
  match chars with
  | EmptyString => false
  | String d chars' => Ascii.eqb c d || mem c chars'
  end.

Fixpoint lstrip (chars s : string) : string :=
  match s with
  | EmptyString => EmptyString
  | String c s' => if mem c chars then lstrip chars s' else s
  end.

Fixpoint rstrip (chars s : string) : string :=
  match s with
  | EmptyString => EmptyString
  | String c s' =>
      match rstrip chars s' with
      | EmptyString => if mem c chars then EmptyString else String c EmptyString
      | r => String c r
      end
  end.

(** [s.strip(chars)]: the characters of [chars] removed from both ends. *)
Definition strip (chars s : string) : string := rstrip chars (lstrip chars s).

(** The code points below 256 that [int] skips as white space around a
    literal: the ASCII white space 9 to 13 and 32, and the two of Latin-1,
    133 and 160.  (The separators 28 to 31 are not skipped.) *)
Definition is_space (c : ascii) : bool :=
  let n := Z.of_nat (nat_of_ascii c) in
  ((9 <=? n) && (n <=? 13)) || (n =? 32) || (n =? 133) || (n =? 160).

Fixpoint lstrip_space (s : string) : string :=
  match s with
  | EmptyString => EmptyString
  | String c s' => if is_space c then lstrip_space s' else s
  end.

Fixpoint rstrip_space (s : string) : string :=
  match s with
  | EmptyString => EmptyString
  | String c s' =>
      match rstrip_space s' with
      | EmptyString => if is_space c then EmptyString else String c EmptyString
      | r => String c r
      end
  end.

Definition digit_of (c : ascii) : option Z :=
  let n := Z.of_nat (nat_of_ascii c) in
  if (48 <=? n) && (n <=? 57) then Some (n - 48) else None.

(** The digits of an integer literal: decimal digits, with single
    underscores allowed between two digits.  [after_digit] tells whether
    the previous character was a digit. *)
Fixpoint int_digits (acc : Z) (after_digit : bool) (s : string) : option Z :=
  match s with
  | EmptyString => if after_digit then Some acc else None
  | String c s' =>
      if Ascii.eqb c "_" then
        if after_digit then int_digits acc false s' else None
      else
        match digit_of c with
        | Some d => int_digits (10 * acc + d) true s'
        | None => None
        end
  end.

(** [int(s)] in base ten: surrounding white space, an optional sign, then
    the digits; [ValueError] on anything else. *)
Definition int (s : string) : result Z :=
  let t := rstrip_space (lstrip_space s) in
  let signed :=
    match t with
    | String "-" r => option_map Z.opp (int_digits 0 false r)
    | String "+" r => int_digits 0 false r
    | _ => int_digits 0 false t
    end in
  match signed with
  | Some z => Ok z
  | None => Raise ValueError
  end.

(** [str(z)]: the decimal numeral of an integer. *)
Definition str (z : Z) : string := NilZero.string_of_int (Z.to_int z).

End PyStr.

(** ** Floats *)

Module PyFloat.

(** [int(x)] of a float: truncation toward zero; [ValueError] on a NaN and
    [OverflowError] on an infinity. *)
Definition to_int (x : float) : result Z :=
  match Prim2SF x with
  | S754_zero _ => Ok 0
  | S754_infinity _ => Raise OverflowError
  | S754_nan => Raise ValueError
  | S754_finite s m e =>
      let a := if 0 <=? e then Z.pos m * 2 ^ e else Z.shiftr (Z.pos m) (- e) in
      Ok (if s then - a else a)
  end.

(** [x >= y]. *)
Definition ge (x y : float) : bool := PrimFloat.leb y x.

(** [x < y]. *)
Definition lt (x y : float) : bool := PrimFloat.ltb x y.

(** [x <= y]. *)
Definition le (x y : float) : bool := PrimFloat.leb x y.

End PyFloat.


(** ** Data frames *)

Inductive scalar : Type :=
| PyInt (z : Z)
| PyFloat (x : float).

(** A frame keeps its columns in order, each under its name, with one
    value per index label. *)
Record DataFrame : Type := {
  df_index : list Z;
  df_columns : list (string * list scalar)
}.

(** [pd.DataFrame(data, index=index)] for a dict of scalars: the columns
    in the dict's insertion order, each scalar repeated along the index. *)
Definition pd_DataFrame (data : list (string * scalar)) (index : list Z)
  : DataFrame :=
  {| df_index := index;
     df_columns := map (fun kv => (fst kv, map (fun _ => snd kv) index)) data |}.


(** [df[name]]: the column bound to a name. *)
Fixpoint lookup_column (name : string) (cols : list (string * list scalar))
  : option (list scalar) :=
  match cols with
  | [] => None
  | (k, v) :: cols' => if String.eqb k name then Some v else lookup_column name cols'
  end.

Definition column (df : DataFrame) (name : string) : option (list scalar) :=
  lookup_column name (df_columns df).

(** ** Page elements *)

(** A formatted string: literal text and floats under a format spec. *)
Inductive fpart : Type :=
| Lit (s : string)
| Fmt (x : float) (spec : string).

Inductive element : Type :=
| st_title (body : string)
| st_markdown (body : string)
| st_error (body : string)
| st_success (body : string)
| st_subheader (body : string)
| st_write (body : string)
| st_write_frame (df : DataFrame)
| st_metric (label : string) (value : list fpart)
| st_progress (value : Z)
| st_caption (body : list fpart)
| st_button (label : string)
| sidebar_header (body : string)
| sidebar_slider (label : string)
| sidebar_selectbox (label : string)
| sidebar_radio (label : string)
| in_column (i : nat) (e : element).

(** ** The classifier artifact and the process *)

(** What the script uses of a loaded object: its truth value and its
    [predict_proba]. *)
Record estimator : Type := {
  est_truthy : bool;
  predict_proba : DataFrame -> result (list (list float))
}.

(** A Python value the loader can return: [None], or a reference to an
    object, told apart from other objects by its identity. *)
Inductive pyobj : Type :=
| PyNone
| PyRef (id : nat) (obj : estimator).

(** The content of a pickle file. *)
Inductive pickled : Type :=
| PickledNone
| PickledEstimator (obj : estimator).

Inductive file : Type :=
| Pickle (content : pickled)
| Garbage.

(** The artifact path either resolves to a file or does not. *)
Definition storage : Type := option file.

(** The state of the server process: the next fresh object identity, the
    entry of the resource cache for [load_model] (the value returned and
    the elements the call drew, which a cache hit draws again), and two
    counters of what was done so far: reads of the artifact from storage
    and calls of [predict_proba]. *)
Record process : Type := {
  next_id : nat;
  cache : option (pyobj * list element);
  storage_reads : nat;
  predictions : nat
}.

Definition fresh_process : process :=
  {| next_id := 0; cache := None; storage_reads := 0; predictions := 0 |}.

(** ** The monad of a script run

    A computation draws elements, changes the process state, and returns a
    value or raises; what was drawn before an exception stays drawn. *)

Definition App (A : Type) : Type := process -> list element * process * result A.

Definition ret {A} (a : A) : App A := fun p => ([], p, Ok a).

Definition bind {A B} (m : App A) (k : A -> App B) : App B :=
  fun p =>
    match m p with
    | (out, p1, Ok a) =>
        match k a p1 with
        | (out2, p2, r) => (out ++ out2, p2, r)
        end
    | (out, p1, Raise e) => (out, p1, Raise e)
    end.

Notation "x <- m ;; k" := (bind m (fun x => k))
  (at level 61, m at next level, right associativity).
Notation "m ;; k" := (bind m (fun _ => k))
  (at level 61, right associativity).

Definition emit (e : element) : App unit := fun p => ([e], p, Ok tt).

Definition lift {A} (r : result A) : App A := fun p => ([], p, r).

(** [try: body  except <handled>: handler]: [handler e] is [None] for an
    exception the clause does not name. *)
Definition try_except {A} (body : App A) (handler : exception -> option (App A))
  : App A :=
  fun p =>
    match body p with
    | (out, p1, Ok a) => (out, p1, Ok a)
    | (out, p1, Raise e) =>
        match handler e with
        | Some h =>
            match h p1 with
            | (out2, p2, r) => (out ++ out2, p2, r)
            end
        | None => (out, p1, Raise e)
        end
    end.

(** ** Section 2 of the script: loading the model *)

(** [joblib.load('heart_disease_rf_model.pkl')]: a read of the artifact
    from storage.  A path that does not resolve raises [FileNotFoundError];
    a file that is no pickle raises while it is deserialized; a pickled
    object is a new object on every load. *)
Definition joblib_load (fs : storage) : App pyobj :=
  fun p =>
    let p1 := {| next_id := next_id p; cache := cache p;
                 storage_reads := S (storage_reads p);
                 predictions := predictions p |} in
    match fs with
    | None => ([], p1, Raise FileNotFoundError)
    | Some Garbage => ([], p1, Raise UnpicklingError)
    | Some (Pickle PickledNone) => ([], p1, Ok PyNone)
    | Some (Pickle (PickledEstimator obj)) =>
        ([], {| next_id := S (next_id p); cache := cache p;
                storage_reads := S (storage_reads p);
                predictions := predictions p |},
         Ok (PyRef (next_id p) obj))
    end.

Definition model_not_found_message : string :=
  "Model file not found! Please run 'deploy_model.py' first to generate the .pkl file.".

(** The body of [load_model]. *)
Definition load_model_body (fs : storage) : App pyobj :=
  try_except (joblib_load fs)
    (fun e =>
       match e with
       | FileNotFoundError =>
           Some (emit (st_error model_not_found_message) ;; ret PyNone)
       | _ => None
       end).

(** [@st.cache_resource] on a function of no argument: the first call that
    returns stores its value, with the elements it drew, for the life of
    the process; a later call returns the stored value and draws the
    stored elements again, without running the body.  A call that raises
    stores nothing. *)
Definition st_cache_resource (body : App pyobj) : App pyobj :=
  fun p =>
    match cache p with
    | Some (v, drawn) => (drawn, p, Ok v)
    | None =>
        match body p with
        | (out, p1, Ok v) =>
            (out,
             {| next_id := next_id p1; cache := Some (v, out);
                storage_reads := storage_reads p1;
                predictions := predictions p1 |},
             Ok v)
        | (out, p1, Raise e) => (out, p1, Raise e)
        end
    end.

Definition load_model (fs : storage) : App pyobj :=
  st_cache_resource (load_model_body fs).

(** ** Section 3 of the script: the sidebar *)

(** A slider as the script declares it: label, bounds and default. *)
Record slider_decl (A : Type) : Type := Slider {
  sl_label : string;
  sl_min : A;
  sl_max : A;
  sl_value : A
}.

(** A select box or radio group as the script declares it: label,
    options and the position of the default. *)
Record choice_decl (A : Type) : Type := Choice {
  ch_label : string;
  ch_options : list A;
  ch_index : nat
}.

Arguments Slider {A}.
Arguments sl_label {A}.
Arguments sl_min {A}.
Arguments sl_max {A}.
Arguments sl_value {A}.
Arguments Choice {A}.
Arguments ch_label {A}.
Arguments ch_options {A}.
Arguments ch_index {A}.

Definition Age : slider_decl Z := Slider "Age" 20 80 58.
Definition Sex : choice_decl string := Choice "Sex" ["Male"; "Female"] 0.
Definition ChestPainType : choice_decl string :=
  Choice "Chest Pain Type"
    ["Typical Angina (0)"; "Atypical Angina (1)"; "Non-anginal Pain (2)";
     "Asymptomatic (3)"] 2.
Definition RestingSystolicBP : slider_decl Z :=
  Slider "Resting Systolic BP (Top Number)" 80 200 120.
Definition Cholesterol : slider_decl Z := Slider "Cholesterol (mg/dl)" 100 600 210.
Definition MaxHeartRate : slider_decl Z := Slider "Max Heart Rate Achieved" 60 220 130.
Definition FastingBloodSugar : choice_decl string :=
  Choice "Fasting Blood Sugar > 120 mg/dl?" ["No"; "Yes"] 0.
Definition RestingECG : choice_decl Z := Choice "Resting ECG Results" [0; 1; 2] 1.
Definition ExerciseAngina : choice_decl string :=
  Choice "Exercise Induced Angina?" ["No"; "Yes"] 0.
Definition Oldpeak : slider_decl float :=
  Slider "ST Depression (Oldpeak)" 0.0%float 6.2%float 1.5%float.
Definition Slope : choice_decl Z := Choice "Slope of Peak Exercise ST" [0; 1; 2] 1.
Definition MajorVessels : slider_decl Z := Slider "Number of Major Vessels (0-3)" 0 3 0.
Definition Thalassemia : choice_decl string :=
  Choice "Thalassemia" ["Normal (1)"; "Fixed Defect (2)"; "Reversible Defect (3)"] 1.

(** What the user has set on the page when the script runs: the current
    value of each of the thirteen controls, and whether this run was
    triggered by the button. *)
Record session : Type := {
  age_value : Z;
  sex_choice : string;
  cp_choice : string;
  trestbps_value : Z;
  chol_value : Z;
  thalach_value : Z;
  fbs_choice : string;
  restecg_choice : Z;
  exang_choice : string;
  oldpeak_value : float;
  slope_choice : Z;
  ca_value : Z;
  thal_choice : string;
  assess_clicked : bool
}.

(** The widget calls: each draws its control and returns the current value. *)
Definition st_sidebar_slider {A} (d : slider_decl A) (current : A) : App A :=
  emit (sidebar_slider (sl_label d)) ;; ret current.

Definition st_sidebar_selectbox {A} (d : choice_decl A) (current : A) : App A :=
  emit (sidebar_selectbox (ch_label d)) ;; ret current.

Definition st_sidebar_radio {A} (d : choice_decl A) (current : A) : App A :=
  emit (sidebar_radio (ch_label d)) ;; ret current.

Definition button (label : string) (clicked : bool) : App bool :=
  emit (st_button label) ;; ret clicked.

(** What a control can hand back: a slider a value between its bounds, a
    select box or radio group one of its options. *)
Definition int_slider_ok (d : slider_decl Z) (v : Z) : bool :=
  (sl_min d <=? v) && (v <=? sl_max d).

Definition float_slider_ok (d : slider_decl float) (v : float) : bool :=
  PyFloat.le (sl_min d) v && PyFloat.le v (sl_max d).

Definition string_choice_ok (d : choice_decl string) (v : string) : bool :=
  existsb (String.eqb v) (ch_options d).

Definition int_choice_ok (d : choice_decl Z) (v : Z) : bool :=
  existsb (Z.eqb v) (ch_options d).

Definition session_ok (w : session) : bool :=
  int_slider_ok Age (age_value w)
  && string_choice_ok Sex (sex_choice w)
  && string_choice_ok ChestPainType (cp_choice w)
  && int_slider_ok RestingSystolicBP (trestbps_value w)
  && int_slider_ok Cholesterol (chol_value w)
  && int_slider_ok MaxHeartRate (thalach_value w)
  && string_choice_ok FastingBloodSugar (fbs_choice w)
  && int_choice_ok RestingECG (restecg_choice w)
  && string_choice_ok ExerciseAngina (exang_choice w)
  && float_slider_ok Oldpeak (oldpeak_value w)
  && int_choice_ok Slope (slope_choice w)
  && int_slider_ok MajorVessels (ca_value w)
  && string_choice_ok Thalassemia (thal_choice w).

(** [1 if sex_option == "Male" else 0]. *)
Definition sex_code (sex_option : string) : Z :=
  if String.eqb sex_option "Male" then 1 else 0.

(** [1 if option == "Yes" else 0], for [fbs] and for [exang]. *)
Definition yes_code (option : string) : Z :=
  if String.eqb option "Yes" then 1 else 0.

(** [int(option.split("(")[-1].strip(")"))], for [cp] and for [thal]. *)
Definition label_code (option : string) : result Z :=
  rbind (PyList.index_last (PyStr.split "(" option))
    (fun piece => PyStr.int (PyStr.strip ")" piece)).

Definition user_input_features (w : session) : App DataFrame :=
  age <- st_sidebar_slider Age (age_value w) ;;
  sex_option <- st_sidebar_selectbox Sex (sex_choice w) ;;
  let sex := sex_code sex_option in
  cp_option <- st_sidebar_selectbox ChestPainType (cp_choice w) ;;
  cp <- lift (label_code cp_option) ;;
  trestbps <- st_sidebar_slider RestingSystolicBP (trestbps_value w) ;;
  chol <- st_sidebar_slider Cholesterol (chol_value w) ;;
  thalach <- st_sidebar_slider MaxHeartRate (thalach_value w) ;;
  fbs_option <- st_sidebar_radio FastingBloodSugar (fbs_choice w) ;;
  let fbs := yes_code fbs_option in
  restecg <- st_sidebar_selectbox RestingECG (restecg_choice w) ;;
  exang_option <- st_sidebar_radio ExerciseAngina (exang_choice w) ;;
  let exang := yes_code exang_option in
  oldpeak <- st_sidebar_slider Oldpeak (oldpeak_value w) ;;
  slope <- st_sidebar_selectbox Slope (slope_choice w) ;;
  ca <- st_sidebar_slider MajorVessels (ca_value w) ;;
  thal_option <- st_sidebar_selectbox Thalassemia (thal_choice w) ;;
  thal <- lift (label_code thal_option) ;;
  let data :=
    [("age", PyInt age);
     ("sex", PyInt sex);
     ("cp", PyInt cp);
     ("trestbps", PyInt trestbps);
     ("chol", PyInt chol);
     ("fbs", PyInt fbs);
     ("restecg", PyInt restecg);
     ("thalach", PyInt thalach);
     ("exang", PyInt exang);
     ("oldpeak", PyFloat oldpeak);
     ("slope", PyInt slope);
     ("ca", PyInt ca);
     ("thal", PyInt thal)] in
  ret (pd_DataFrame data [0]).

(** ** Section 4 of the script: the prediction *)

Definition THRESHOLD : float := 0.3%float.

(** [prediction_prob >= THRESHOLD]. *)
Definition is_high_risk (prediction_prob : float) : bool :=
  PyFloat.ge prediction_prob THRESHOLD.

(** [bool(model)]. *)
Definition truth (model : pyobj) : bool :=
  match model with
  | PyNone => false
  | PyRef _ obj => est_truthy obj
  end.

(** [model.predict_proba(input_df)]: one inference call. *)
Definition model_predict_proba (model : pyobj) (input_df : DataFrame)
  : App (list (list float)) :=
  fun p =>
    match model with
    | PyNone => ([], p, Raise AttributeError)
    | PyRef _ obj =>
        ([], {| next_id := next_id p; cache := cache p;
                storage_reads := storage_reads p;
                predictions := S (predictions p) |},
         predict_proba obj input_df)
    end.

(** [st.progress(value)] accepts an int from 0 to 100. *)
Definition progress (value : Z) : App unit :=
  if (0 <=? value) && (value <=? 100) then emit (st_progress value)
  else lift (Raise StreamlitAPIException).

(** The second result column: the risk badge and the recommendation. *)
Definition risk_column (high : bool) : App unit :=
  if high then
    emit (in_column 1 (st_error "**HIGH RISK**")) ;;
    emit (in_column 1 (st_write "Recommendation: **Refer to Cardiology**"))
  else
    emit (in_column 1 (st_success "**LOW RISK**")) ;;
    emit (in_column 1 (st_write "Recommendation: **Standard Follow-up**")).

(** The body of [if model:]. *)
Definition prediction_block (model : pyobj) (input_df : DataFrame) : App unit :=
  proba <- model_predict_proba model input_df ;;
  row <- lift (PyList.index proba 0) ;;
  prediction_prob <- lift (PyList.index row 1) ;;
  let high := is_high_risk prediction_prob in
  emit (st_markdown "---") ;;
  emit (st_subheader "Assessment Result") ;;
  emit (in_column 0 (st_metric "Risk Probability" [Fmt prediction_prob ".1%"])) ;;
  risk_column high ;;
  value <- lift (PyFloat.to_int (prediction_prob * 100)%float) ;;
  progress value ;;
  emit (st_caption [Lit "Note: This tool uses a high-sensitivity threshold of ";
                    Fmt (THRESHOLD * 100)%float "";
                    Lit "%."]).

(** ** The script, one run

    [st.set_page_config] sets the browser tab and draws nothing; the two
    columns of the results section are containers, and what is drawn in
    one is tagged [in_column] with its position. *)

Definition intro_markdown : string :=
  "
This tool uses a **Random Forest** machine learning model to estimate the risk of heart disease.
*Adjust the sliders in the sidebar to simulate a patient.*
".

Definition script (fs : storage) (w : session) : App unit :=
  emit (st_title "Heart Disease Risk Calculator") ;;
  emit (st_markdown intro_markdown) ;;
  model <- load_model fs ;;
  emit (sidebar_header "Patient Vitals") ;;
  input_df <- user_input_features w ;;
  emit (st_subheader "Patient Data Summary") ;;
  emit (st_write_frame input_df) ;;
  clicked <- button "Assess Risk" (assess_clicked w) ;;
  if clicked then
    if truth model then prediction_block model input_df else ret tt
  else ret tt.

(** The server runs the script once per interaction, each run on the
    process state the previous one left, and keeps serving after a run that
    raised.  [serve] returns the page and outcome of every run. *)
Fixpoint serve (fs : storage) (ws : list session) (p : process)
  : list (list element * result unit) * process :=
  match ws with
  | [] => ([], p)
  | w :: ws' =>
      match script fs w p with
      | (page, p1, r) =>
          match serve fs ws' p1 with
          | (pages, p2) => ((page, r) :: pages, p2)
          end
      end
  end.

(** The session a new page starts with: every control at its default. *)
Definition default_session : session :=
  {| age_value := sl_value Age;
     sex_choice := nth (ch_index Sex) (ch_options Sex) "";
     cp_choice := nth (ch_index ChestPainType) (ch_options ChestPainType) "";
     trestbps_value := sl_value RestingSystolicBP;
     chol_value := sl_value Cholesterol;
     thalach_value := sl_value MaxHeartRate;
     fbs_choice := nth (ch_index FastingBloodSugar) (ch_options FastingBloodSugar) "";
     restecg_choice := nth (ch_index RestingECG) (ch_options RestingECG) 0;
     exang_choice := nth (ch_index ExerciseAngina) (ch_options ExerciseAngina) "";
     oldpeak_value := sl_value Oldpeak;
     slope_choice := nth (ch_index Slope) (ch_options Slope) 0;
     ca_value := sl_value MajorVessels;
     thal_choice := nth (ch_index Thalassemia) (ch_options Thalassemia) "";
     assess_clicked := false |}.

(** A predictor fixed to one probability of the positive class. *)
Definition stub (prob : float) : estimator :=
  {| est_truthy := true;
     predict_proba := fun _ => Ok [[(1 - prob)%float; prob]] |}.

(** The session of the end-to-end scenario, with the button pressed. *)
Definition scenario : session :=
  {| age_value := 58;
     sex_choice := "Male";
     cp_choice := "Non-anginal Pain (2)";
     trestbps_value := 120;
     chol_value := 210;
     thalach_value := 130;
     fbs_choice := "No";
     restecg_choice := 1;
     exang_choice := "No";
     oldpeak_value := 1.5%float;
     slope_choice := 1;
     ca_value := 0;
     thal_choice := "Fixed Defect (2)";
     assess_clicked := true |}.

(** ** The classification as the specification names it *)

Inductive risk_label : Type := HIGH | LOW.

(** [classify] in the specification's words: at or above 0.3 the label is
    HIGH with a referral, below it LOW with the standard follow-up.  It is
    compared with the script's [is_high_risk] and [risk_column] below. *)
Definition classify (probability : float) : risk_label * string :=
  if PyFloat.ge probability 0.3%float then (HIGH, "Refer to Cardiology")
  else (LOW, "Standard Follow-up").

(** How the page shows a label and its recommendation. *)
Definition badge (r : risk_label * string) : list element :=
  [in_column 1 (match fst r with
                | HIGH => st_error "**HIGH RISK**"
                | LOW => st_success "**LOW RISK**"
                end);
   in_column 1 (st_write ("Recommendation: **" ++ snd r ++ "**")%string)].

(** LOW is below HIGH. *)
Definition risk_leb (a b : risk_label) : bool :=
  match a, b with
  | HIGH, LOW => false
  | _, _ => true
  end.

(** ** Auxiliary definitions of the proofs *)

(** The value of a decimal numeral read from the left. *)
Fixpoint horner (acc : Z) (d : Decimal.uint) : Z :=
  match d with
  | Decimal.Nil => acc
  | Decimal.D0 d => horner (10 * acc + 0) d
  | Decimal.D1 d => horner (10 * acc + 1) d
  | Decimal.D2 d => horner (10 * acc + 2) d
  | Decimal.D3 d => horner (10 * acc + 3) d
  | Decimal.D4 d => horner (10 * acc + 4) d
  | Decimal.D5 d => horner (10 * acc + 5) d
  | Decimal.D6 d => horner (10 * acc + 6) d
  | Decimal.D7 d => horner (10 * acc + 7) d
  | Decimal.D8 d => horner (10 * acc + 8) d
  | Decimal.D9 d => horner (10 * acc + 9) d
  end.

(** The order of two finite floats of one sign, as [SFcompare] takes it:
    by exponent, then by mantissa. *)
Definition lex (e1 : Z) (m1 : positive) (e2 : Z) (m2 : positive) : comparison :=
  match e1 ?= e2 with
  | Eq => Pos.compare_cont Eq m1 m2
  | Lt => Lt
  | Gt => Gt
  end.

(** ** The page a run draws, by parts *)

Definition intro : list element :=
  [st_title "Heart Disease Risk Calculator"; st_markdown intro_markdown].

Definition controls : list element :=
  [sidebar_slider (sl_label Age);
   sidebar_selectbox (ch_label Sex);
   sidebar_selectbox (ch_label ChestPainType);
   sidebar_slider (sl_label RestingSystolicBP);
   sidebar_slider (sl_label Cholesterol);
   sidebar_slider (sl_label MaxHeartRate);
   sidebar_radio (ch_label FastingBloodSugar);
   sidebar_selectbox (ch_label RestingECG);
   sidebar_radio (ch_label ExerciseAngina);
   sidebar_slider (sl_label Oldpeak);
   sidebar_selectbox (ch_label Slope);
   sidebar_slider (sl_label MajorVessels);
   sidebar_selectbox (ch_label Thalassemia)].

Definition summary (df : DataFrame) : list element :=
  [st_subheader "Patient Data Summary"; st_write_frame df].

(** What a run draws after the loader, up to and with the button. *)
Definition page_after_loader (df : DataFrame) : list element :=
  [sidebar_header "Patient Vitals"] ++ controls ++ summary df
  ++ [st_button "Assess Risk"].

(** What a run draws up to and with the button. *)
Definition page_to_button (loader_drew : list element) (df : DataFrame)
  : list element :=
  intro ++ loader_drew ++ page_after_loader df.

(** The state a process is in after a load that found no artifact. *)
Definition no_model_cached (p : process) : process :=
  {| next_id := next_id p;
     cache := Some (PyNone, [st_error model_not_found_message]);
     storage_reads := S (storage_reads p);
     predictions := predictions p |}.

Definition threshold_note : list fpart :=
  [Lit "Note: This tool uses a high-sensitivity threshold of ";
   Fmt 30%float "";
   Lit "%."].

(** The elements of the results section: its heading, the probability
    metric, the two result columns (the metric in the first, the risk
    badge and the recommendation in the second), the progress bar and the
    note under it. *)
Definition shows_result (e : element) : bool :=
  match e with
  | st_metric _ _ | st_progress _ | st_caption _ | in_column _ _ => true
  | st_subheader body => String.eqb body "Assessment Result"
  | _ => false
  end.

(** The record the collector builds from a session whose two coded labels
    read as [cp] and [thal]. *)
Definition record_of (w : session) (cp thal : Z) : DataFrame :=
  pd_DataFrame
    [("age", PyInt (age_value w));
     ("sex", PyInt (sex_code (sex_choice w)));
     ("cp", PyInt cp);
     ("trestbps", PyInt (trestbps_value w));
     ("chol", PyInt (chol_value w));
     ("fbs", PyInt (yes_code (fbs_choice w)));
     ("restecg", PyInt (restecg_choice w));
     ("thalach", PyInt (thalach_value w));
     ("exang", PyInt (yes_code (exang_choice w)));
     ("oldpeak", PyFloat (oldpeak_value w));
     ("slope", PyInt (slope_choice w));
     ("ca", PyInt (ca_value w));
     ("thal", PyInt thal)]
    [0].

(** ** The declared domains of a patient record *)

Definition int_field_in (df : DataFrame) (name : string) (lo hi : Z) : bool :=
  match column df name with
  | Some [PyInt z] => (lo <=? z) && (z <=? hi)
  | _ => false
  end.

Definition float_field_in (df : DataFrame) (name : string) (lo hi : float)
  : bool :=
  match column df name with
  | Some [PyFloat x] => PyFloat.le lo x && PyFloat.le x hi
  | _ => false
  end.

Definition record_ok (df : DataFrame) : bool :=
  int_field_in df "age" 20 80
  && int_field_in df "sex" 0 1
  && int_field_in df "cp" 0 3
  && int_field_in df "trestbps" 80 200
  && int_field_in df "chol" 100 600
  && int_field_in df "fbs" 0 1
  && int_field_in df "restecg" 0 2
  && int_field_in df "thalach" 60 220
  && int_field_in df "exang" 0 1
  && float_field_in df "oldpeak" 0.0%float 6.2%float
  && int_field_in df "slope" 0 2
  && int_field_in df "ca" 0 3
  && int_field_in df "thal" 1 3.

(** ** The two steps of the prediction that can fail *)

(** [model.predict_proba(input_df)[0][1]]: the call and the two
    subscripts. *)
Definition positive_class_probability (obj : estimator) (input_df : DataFrame)
  : result float :=
  rbind (predict_proba obj input_df)
    (fun proba =>
       rbind (PyList.index proba 0) (fun row => PyList.index row 1)).

(** [int(prediction_prob * 100)] as [st.progress] takes it. *)
Definition progress_value (prediction_prob : float) : result Z :=
  rbind (PyFloat.to_int (prediction_prob * 100)%float)
    (fun value =>
       if (0 <=? value) && (value <=? 100) then Ok value
       else Raise StreamlitAPIException).

(** The results section up to the badge. *)
Definition result_head (prediction_prob : float) : list element :=
  [st_markdown "---";
   st_subheader "Assessment Result";
   in_column 0 (st_metric "Risk Probability" [Fmt prediction_prob ".1%"])]
  ++ badge (classify prediction_prob).

(** A process after one more inference call. *)
Definition one_more_prediction (p : process) : process :=
  {| next_id := next_id p;
     cache := cache p;
     storage_reads := storage_reads p;
     predictions := S (predictions p) |}.

(** A predictor that raises on every input. *)
Definition failing_estimator (e : exception) : estimator :=
  {| est_truthy := true; predict_proba := fun _ => Raise e |}.

(** ** An artifact that takes its features by position *)



(** * Properties *)

(** ** Strings: the code embedded in a label *)

Section LabelCode.

Import PyList PyStr.

Lemma horner_of_lu (d : Decimal.uint) : forall acc,
  horner acc d
  = Z.of_N (Unsigned.of_lu (Decimal.rev d))
    + acc * 10 ^ Z.of_N (Unsigned.usize d).
Proof.
  induction d; intro acc; cbn [horner Unsigned.usize];
    [ cbn; lia | .. ];
    rewrite IHd; unfold Decimal.rev at 2; cbn [Decimal.revapp];
    rewrite (Unsigned.of_lu_revapp d); cbn [Unsigned.of_lu];
    rewrite N2Z.inj_add, N2Z.inj_mul, N2Z.inj_pow, N2Z.inj_succ;
    rewrite Z.pow_succ_r by apply N2Z.is_nonneg;
    change (Z.of_N 10) with 10;
    match goal with
    | |- context [Z.of_N ?n * _] =>
        let v := eval vm_compute in (Z.of_N n) in change (Z.of_N n) with v
    end;
    generalize (10 ^ Z.of_N (Unsigned.usize d));
    generalize (Z.of_N (Unsigned.of_lu (Decimal.rev d)));
    intros; lia.
Qed.

Lemma horner_of_uint (d : Decimal.uint) : horner 0 d = Z.of_uint d.
Proof.
  rewrite horner_of_lu. unfold Z.of_uint.
  rewrite Unsigned.of_uint_alt. lia.
Qed.

Lemma int_digits_step (acc : Z) (b : bool) (c : ascii) (k : Z) (s : string) :
  Ascii.eqb c "_" = false ->
  digit_of c = Some k ->
  int_digits acc b (String c s) = int_digits (10 * acc + k) true s.
Proof. intros H1 H2. cbn [int_digits]. rewrite H1, H2. reflexivity. Qed.

Lemma int_digits_numeral (d : Decimal.uint) : forall acc,
  int_digits acc true (NilEmpty.string_of_uint d) = Some (horner acc d).
Proof.
  induction d; intro acc; cbn [NilEmpty.string_of_uint horner];
    [ reflexivity | .. ];
    erewrite int_digits_step by reflexivity; apply IHd.
Qed.

Lemma int_digits_numeral_start (d : Decimal.uint) :
  d <> Decimal.Nil ->
  int_digits 0 false (NilEmpty.string_of_uint d) = Some (Z.of_uint d).
Proof.
  intro Hd. rewrite <- horner_of_uint.
  destruct d; try congruence; cbn [NilEmpty.string_of_uint horner];
    erewrite int_digits_step by reflexivity; apply int_digits_numeral.
Qed.

(** A numeral holds no parenthesis and no white space. *)
Lemma split_numeral (d : Decimal.uint) (rest : string) :
  split "(" (NilEmpty.string_of_uint d ++ rest)%string
  = (NilEmpty.string_of_uint d ++ hd EmptyString (split "(" rest))%string
    :: tl (split "(" rest).
Proof.
  induction d; cbn [NilEmpty.string_of_uint String.append];
    [ destruct rest as [|c rest]; cbn [split hd tl]; [ reflexivity | ];
      destruct (Ascii.eqb c "("); [ reflexivity | ];
      destruct (split "(" rest); reflexivity
    | .. ];
    cbn [split]; rewrite IHd;
    match goal with
    | |- context [Ascii.eqb ?a ?b] =>
        change (Ascii.eqb a b) with false; cbv iota
    end;
    reflexivity.
Qed.

Lemma rstrip_numeral (d : Decimal.uint) :
  rstrip ")" (NilEmpty.string_of_uint d ++ ")")%string
  = NilEmpty.string_of_uint d.
Proof.
  induction d; cbn [NilEmpty.string_of_uint String.append];
    [ reflexivity | .. ];
    cbn [rstrip]; rewrite IHd;
    destruct (NilEmpty.string_of_uint d); reflexivity.
Qed.

Lemma lstrip_space_numeral (d : Decimal.uint) :
  lstrip_space (NilEmpty.string_of_uint d) = NilEmpty.string_of_uint d.
Proof. destruct d; reflexivity. Qed.

Lemma rstrip_space_numeral (d : Decimal.uint) :
  rstrip_space (NilEmpty.string_of_uint d) = NilEmpty.string_of_uint d.
Proof.
  induction d; cbn [NilEmpty.string_of_uint]; [ reflexivity | .. ];
    cbn [rstrip_space]; rewrite IHd;
    destruct (NilEmpty.string_of_uint d); reflexivity.
Qed.

(** The text after the last opening parenthesis. *)
Lemma split_after_paren (wording rest : string) :
  exists piece pieces,
    split "(" (wording ++ String "(" rest)%string
    = piece :: pieces ++ split "(" rest.
Proof.
  induction wording as [|c wording IH]; cbn [String.append split].
  - exists EmptyString, []. reflexivity.
  - destruct IH as (piece & pieces & IH). rewrite IH.
    destruct (Ascii.eqb c "(").
    + exists EmptyString, (piece :: pieces). reflexivity.
    + exists (String c piece), pieces. reflexivity.
Qed.

Lemma index_last_app {A} (xs ys : list A) :
  ys <> [] -> index_last (xs ++ ys) = index_last ys.
Proof.
  intro Hys. induction xs as [|x xs IH]; [ reflexivity | ].
  cbn [app index_last]. rewrite <- IH.
  destruct (xs ++ ys) eqn:E; [ | reflexivity ].
  apply app_eq_nil in E. tauto.
Qed.

Lemma index_last_split_paren (wording rest : string) :
  index_last (split "(" (wording ++ String "(" rest)%string)
  = index_last (split "(" rest).
Proof.
  destruct (split_after_paren wording rest) as (piece & pieces & E).
  rewrite E. apply (index_last_app (piece :: pieces)).
  destruct rest as [|c rest]; cbn [split]; [ discriminate | ].
  destruct (Ascii.eqb c "("); [ discriminate | ].
  destruct (split "(" rest); discriminate.
Qed.

Lemma int_numeral (d : Decimal.uint) :
  d <> Decimal.Nil ->
  int (NilEmpty.string_of_uint d) = Ok (Z.of_uint d).
Proof.
  intro Hd. pose proof (int_digits_numeral_start d Hd) as E.
  unfold int. rewrite lstrip_space_numeral, rstrip_space_numeral.
  destruct d; try congruence; cbn [NilEmpty.string_of_uint] in *;
    cbv beta iota; rewrite E; reflexivity.
Qed.

Lemma int_minus_numeral (d : Decimal.uint) :
  d <> Decimal.Nil ->
  int (String "-" (NilEmpty.string_of_uint d)) = Ok (- Z.of_uint d).
Proof.
  intro Hd. pose proof (int_digits_numeral_start d Hd) as E.
  unfold int. cbn [lstrip_space]. change (is_space "-") with false. cbv iota.
  cbn [rstrip_space]. rewrite rstrip_space_numeral.
  destruct d; try congruence; cbn [NilEmpty.string_of_uint] in *;
    cbv beta iota; rewrite E; reflexivity.
Qed.

Lemma to_int_nonnil (z : Z) :
  match Z.to_int z with
  | Decimal.Pos d | Decimal.Neg d => d <> Decimal.Nil
  end.
Proof. destruct z; cbn; try discriminate; apply Unsigned.to_uint_nonnil. Qed.

(** [int] reads back the numeral [str] writes. *)
Lemma int_str (z : Z) : int (str z) = Ok z.
Proof.
  unfold str. pose proof (to_int_nonnil z) as Hnn.
  rewrite <- (DecimalZ.of_to z) at 2.
  destruct (Z.to_int z) as [d|d]; cbn [NilZero.string_of_int Z.of_int].
  - replace (NilZero.string_of_uint d) with (NilEmpty.string_of_uint d)
      by (destruct d; congruence || reflexivity).
    apply int_numeral, Hnn.
  - replace (NilZero.string_of_uint d) with (NilEmpty.string_of_uint d)
      by (destruct d; congruence || reflexivity).
    apply int_minus_numeral, Hnn.
Qed.

(** The piece after the last parenthesis of ["...(N)"] strips to [str N]. *)
Lemma split_str_paren (z : Z) :
  split "(" (str z ++ ")")%string = [(str z ++ ")")%string].
Proof.
  unfold str. pose proof (to_int_nonnil z) as Hnn.
  destruct (Z.to_int z) as [d|d]; cbn [NilZero.string_of_int];
    replace (NilZero.string_of_uint d) with (NilEmpty.string_of_uint d)
      by (destruct d; congruence || reflexivity).
  - rewrite split_numeral. reflexivity.
  - cbn [String.append split]. change (Ascii.eqb "-" "(") with false. cbv iota.
    rewrite split_numeral. reflexivity.
Qed.

Lemma strip_str_paren (z : Z) : strip ")" (str z ++ ")")%string = str z.
Proof.
  unfold str, strip. pose proof (to_int_nonnil z) as Hnn.
  destruct (Z.to_int z) as [d|d]; cbn [NilZero.string_of_int];
    replace (NilZero.string_of_uint d) with (NilEmpty.string_of_uint d)
      by (destruct d; congruence || reflexivity).
  - replace (lstrip ")" (NilEmpty.string_of_uint d ++ ")")%string)
      with (NilEmpty.string_of_uint d ++ ")")%string
      by (destruct d; congruence || reflexivity).
    apply rstrip_numeral.
  - cbn [String.append lstrip mem]. change (Ascii.eqb "-" ")") with false.
    cbv iota beta. cbn [orb]. cbv iota. cbn [rstrip]. rewrite rstrip_numeral.
    destruct d; congruence || reflexivity.
Qed.

Lemma label_code_wording (wording : string) (N : Z) :
  label_code (wording ++ "(" ++ str N ++ ")")%string = Ok N.
Proof.
  unfold label_code. cbn [String.append].
  rewrite index_last_split_paren, split_str_paren. cbn [index_last rbind].
  rewrite strip_str_paren. apply int_str.
Qed.

End LabelCode.

(** C8: a label ending in a parenthesised integer is read as that integer,
    whatever the wording before the parenthesis; in particular each label
    the script offers for the chest pain type and for the thalassemia type
    is read as the code it shows. *)
Theorem label_code_reads_trailing_integer :
  (forall (wording : string) (N : Z),
      label_code (wording ++ "(" ++ PyStr.str N ++ ")")%string = Ok N)
  /\ label_code "Non-anginal Pain (2)" = Ok 2
  /\ label_code "Fixed Defect (2)" = Ok 2
  /\ map label_code (ch_options ChestPainType) = [Ok 0; Ok 1; Ok 2; Ok 3]
  /\ map label_code (ch_options Thalassemia) = [Ok 1; Ok 2; Ok 3].
Proof.
  split; [ exact label_code_wording | ].
  repeat split; reflexivity.
Qed.

(** ** Floats: the order of binary64 values *)

Section FloatOrder.

Lemma SFcompare_antisym (a b : spec_float) :
  SFcompare b a = option_map CompOpp (SFcompare a b).
Proof.
  destruct a as [sa|sa| |sa ma ea], b as [sb|sb| |sb mb eb]; cbn;
    try destruct sa; try destruct sb; try reflexivity;
    rewrite (Z.compare_antisym ea eb); destruct (ea ?= eb); cbn;
    try reflexivity;
    change (PosDef.Pos.compare_cont Eq mb ma) with (Pos.compare mb ma);
    change (PosDef.Pos.compare_cont Eq ma mb) with (Pos.compare ma mb);
    rewrite (Pos.compare_antisym ma mb), ?CompOpp_involutive; reflexivity.
Qed.

Lemma lex_le e1 m1 e2 m2 :
  lex e1 m1 e2 m2 <> Gt <-> e1 < e2 \/ (e1 = e2 /\ (m1 <= m2)%positive).
Proof.
  unfold lex. change (Pos.compare_cont Eq m1 m2) with (Pos.compare m1 m2).
  destruct (Z.compare_spec e1 e2), (Pos.compare_spec m1 m2);
    split; intros; try lia; try congruence; try discriminate.
Qed.

Lemma lex_ge e1 m1 e2 m2 :
  lex e1 m1 e2 m2 <> Lt <-> e2 < e1 \/ (e1 = e2 /\ (m2 <= m1)%positive).
Proof.
  unfold lex. change (Pos.compare_cont Eq m1 m2) with (Pos.compare m1 m2).
  destruct (Z.compare_spec e1 e2), (Pos.compare_spec m1 m2);
    split; intros; try lia; try congruence; try discriminate.
Qed.

Lemma SFcompare_finite s1 m1 e1 s2 m2 e2 :
  SFcompare (S754_finite s1 m1 e1) (S754_finite s2 m2 e2)
  = Some (match s1, s2 with
          | true, false => Lt
          | false, true => Gt
          | false, false => lex e1 m1 e2 m2
          | true, true => CompOpp (lex e1 m1 e2 m2)
          end).
Proof.
  unfold lex. destruct s1, s2; cbn; try reflexivity.
  destruct (e1 ?= e2); reflexivity.
Qed.

Lemma SFleb_trans (a b c : spec_float) :
  SFleb a b = true -> SFleb b c = true -> SFleb a c = true.
Proof.
  unfold SFleb.
  destruct a as [sa|sa| |sa ma ea], b as [sb|sb| |sb mb eb],
           c as [sc|sc| |sc mc ec];
    rewrite ?SFcompare_finite;
    try destruct sa; try destruct sb; try destruct sc;
    cbn [SFcompare]; try reflexivity; try discriminate;
    intros H1 H2.
  - assert (G1 : lex ea ma eb mb <> Lt)
      by (destruct (lex ea ma eb mb); cbn in H1; congruence).
    assert (G2 : lex eb mb ec mc <> Lt)
      by (destruct (lex eb mb ec mc); cbn in H2; congruence).
    assert (G : lex ea ma ec mc <> Lt) by (rewrite lex_ge in *; lia).
    destruct (lex ea ma ec mc); cbn; congruence.
  - assert (G1 : lex ea ma eb mb <> Gt)
      by (destruct (lex ea ma eb mb); cbn in H1; congruence).
    assert (G2 : lex eb mb ec mc <> Gt)
      by (destruct (lex eb mb ec mc); cbn in H2; congruence).
    assert (G : lex ea ma ec mc <> Gt) by (rewrite lex_le in *; lia).
    destruct (lex ea ma ec mc); cbn; congruence.
Qed.

Lemma le_trans (x y z : float) :
  PyFloat.le x y = true -> PyFloat.le y z = true -> PyFloat.le x z = true.
Proof. unfold PyFloat.le. rewrite !leb_spec. apply SFleb_trans. Qed.

(** [x < y] excludes [x >= y]. *)
Lemma lt_not_ge (x y : float) :
  PyFloat.lt x y = true -> PyFloat.ge x y = false.
Proof.
  unfold PyFloat.lt, PyFloat.ge. rewrite ltb_spec, leb_spec.
  unfold SFltb, SFleb. rewrite (SFcompare_antisym (Prim2SF x) (Prim2SF y)).
  destruct (SFcompare (Prim2SF x) (Prim2SF y)) as [[| |]|];
    cbn; congruence.
Qed.

End FloatOrder.

(** ** The risk classification *)

Lemma risk_column_badge (prob : float) (p : process) :
  risk_column (is_high_risk prob) p = (badge (classify prob), p, Ok tt).
Proof.
  unfold classify, is_high_risk, THRESHOLD.
  destruct (PyFloat.ge prob 0.3); reflexivity.
Qed.

(** C1: the classification depends on the probability alone, with the
    threshold exactly at 0.3: at or above it the label is HIGH with the
    referral, below it LOW with the standard follow-up; the four named
    probabilities fall as stated, a larger probability never gets a lower
    label, and the script's badge column draws this classification
    whatever the state of the process. *)
Theorem classify_threshold_exact :
  (forall prob, PyFloat.ge prob THRESHOLD = true ->
                classify prob = (HIGH, "Refer to Cardiology"))
  /\ (forall prob, PyFloat.lt prob THRESHOLD = true ->
                   classify prob = (LOW, "Standard Follow-up"))
  /\ classify 0.3%float = (HIGH, "Refer to Cardiology")
  /\ classify 0.2999%float = (LOW, "Standard Follow-up")
  /\ classify 1.0%float = (HIGH, "Refer to Cardiology")
  /\ classify 0.0%float = (LOW, "Standard Follow-up")
  /\ (forall p q, PyFloat.le p q = true ->
                  risk_leb (fst (classify p)) (fst (classify q)) = true)
  /\ (forall prob state,
         risk_column (is_high_risk prob) state
         = (badge (classify prob), state, Ok tt)).
Proof.
  split; [ | split ].
  - intros prob H. unfold classify. fold THRESHOLD. rewrite H. reflexivity.
  - intros prob H. unfold classify. fold THRESHOLD.
    rewrite (lt_not_ge _ _ H). reflexivity.
  - repeat split; try reflexivity.
    + intros p q Hpq. unfold classify.
      destruct (PyFloat.ge p 0.3) eqn:Hp; [ | destruct (PyFloat.ge q 0.3); reflexivity ].
      change (PyFloat.ge q 0.3) with (PyFloat.le 0.3 q).
      change (PyFloat.ge p 0.3) with (PyFloat.le 0.3 p) in Hp.
      rewrite (le_trans _ _ _ Hp Hpq). reflexivity.
    + apply risk_column_badge.
Qed.

(** ** The collector *)

Section Collector.

(** A run of the collector touches nothing of the process; it stops at a
    label that holds no code. *)
Lemma user_input_features_run (w : session) (p : process) :
  user_input_features w p
  = match label_code (cp_choice w) with
    | Raise e => (firstn 3 controls, p, Raise e)
    | Ok cp =>
        match label_code (thal_choice w) with
        | Raise e => (controls, p, Raise e)
        | Ok thal => (controls, p, Ok (record_of w cp thal))
        end
    end.
Proof.
  unfold user_input_features, bind, st_sidebar_slider, st_sidebar_selectbox,
    st_sidebar_radio, emit, ret, lift, bind.
  cbn. destruct (label_code (cp_choice w)) as [cp|e]; [ | reflexivity ].
  cbn. destruct (label_code (thal_choice w)) as [thal|e]; reflexivity.
Qed.

Lemma string_choice_ok_in (d : choice_decl string) (v : string) :
  string_choice_ok d v = true -> In v (ch_options d).
Proof.
  unfold string_choice_ok. rewrite existsb_exists.
  intros (x & Hx & E). apply String.eqb_eq in E. subst. exact Hx.
Qed.

Lemma int_choice_ok_in (d : choice_decl Z) (v : Z) :
  int_choice_ok d v = true -> In v (ch_options d).
Proof.
  unfold int_choice_ok. rewrite existsb_exists.
  intros (x & Hx & E). apply Z.eqb_eq in E. subst. exact Hx.
Qed.

Lemma cp_code_in_domain (c : string) :
  string_choice_ok ChestPainType c = true ->
  exists cp, label_code c = Ok cp /\ 0 <= cp <= 3.
Proof.
  intro H. apply string_choice_ok_in in H. cbn in H.
  destruct H as [<-|[<-|[<-|[<-|[]]]]];
    eexists; (split; [ vm_compute; reflexivity | lia ]).
Qed.

Lemma thal_code_in_domain (c : string) :
  string_choice_ok Thalassemia c = true ->
  exists thal, label_code c = Ok thal /\ 1 <= thal <= 3.
Proof.
  intro H. apply string_choice_ok_in in H. cbn in H.
  destruct H as [<-|[<-|[<-|[]]]];
    eexists; (split; [ vm_compute; reflexivity | lia ]).
Qed.

Lemma sex_code_binary (c : string) : 0 <= sex_code c <= 1.
Proof. unfold sex_code. destruct (String.eqb c "Male"); lia. Qed.

Lemma yes_code_binary (c : string) : 0 <= yes_code c <= 1.
Proof. unfold yes_code. destruct (String.eqb c "Yes"); lia. Qed.

(** What [session_ok] says, control by control. *)
Lemma session_ok_fields (w : session) :
  session_ok w = true ->
  (20 <= age_value w <= 80)
  /\ string_choice_ok ChestPainType (cp_choice w) = true
  /\ (80 <= trestbps_value w <= 200)
  /\ (100 <= chol_value w <= 600)
  /\ (60 <= thalach_value w <= 220)
  /\ (0 <= restecg_choice w <= 2)
  /\ float_slider_ok Oldpeak (oldpeak_value w) = true
  /\ (0 <= slope_choice w <= 2)
  /\ (0 <= ca_value w <= 3)
  /\ string_choice_ok Thalassemia (thal_choice w) = true.
Proof.
  unfold session_ok. rewrite !andb_true_iff.
  intros ((((((((((((Hage & _) & Hcp) & Hbp) & Hchol) & Hhr) & _) & Hecg)
             & _) & Hold) & Hslope) & Hca) & Hthal).
  unfold int_slider_ok in *. cbn [sl_min sl_max Age RestingSystolicBP
    Cholesterol MaxHeartRate MajorVessels] in *.
  apply int_choice_ok_in in Hecg, Hslope. cbn in Hecg, Hslope.
  repeat split; try assumption; lia.
Qed.

(** On the values the controls can hand back the collector returns a
    record, and touches nothing of the process. *)
Lemma user_input_features_ok (w : session) :
  session_ok w = true ->
  exists cp thal,
    label_code (cp_choice w) = Ok cp /\ 0 <= cp <= 3
    /\ label_code (thal_choice w) = Ok thal /\ 1 <= thal <= 3
    /\ forall p, user_input_features w p = (controls, p, Ok (record_of w cp thal)).
Proof.
  intro H. apply session_ok_fields in H.
  destruct H as (_ & Hcp & _ & _ & _ & _ & _ & _ & _ & Hthal).
  destruct (cp_code_in_domain _ Hcp) as (cp & Ecp & Bcp).
  destruct (thal_code_in_domain _ Hthal) as (thal & Ethal & Bthal).
  exists cp, thal. repeat split; try assumption; try lia.
  intro p. rewrite user_input_features_run, Ecp, Ethal. reflexivity.
Qed.

End Collector.

(** C7: the collector's mapping from labels to codes is a function that is
    defined on every offered choice: Male is 1 and Female 0, Yes is 1 and
    No 0 for both yes/no questions, each offered chest pain and
    thalassemia label has its one integer code, and what the collector
    returns for a session is the same whatever the state of the process,
    so selecting the same labels again gives the same codes. *)
Theorem label_codes_total_deterministic :
  sex_code "Male" = 1 /\ sex_code "Female" = 0
  /\ yes_code "Yes" = 1 /\ yes_code "No" = 0
  /\ map sex_code (ch_options Sex) = [1; 0]
  /\ map yes_code (ch_options FastingBloodSugar) = [0; 1]
  /\ map yes_code (ch_options ExerciseAngina) = [0; 1]
  /\ map label_code (ch_options ChestPainType) = [Ok 0; Ok 1; Ok 2; Ok 3]
  /\ map label_code (ch_options Thalassemia) = [Ok 1; Ok 2; Ok 3]
  /\ (forall (w : session) (p q : process),
         snd (user_input_features w p) = snd (user_input_features w q)).
Proof.
  repeat split; try reflexivity.
  intros w p q. rewrite !user_input_features_run.
  destruct (label_code (cp_choice w)); [ | reflexivity ].
  destruct (label_code (thal_choice w)); reflexivity.
Qed.

(** ** The record *)

Section Record.


Lemma record_of_ok (w : session) (cp thal : Z) :
  session_ok w = true -> 0 <= cp <= 3 -> 1 <= thal <= 3 ->
  record_ok (record_of w cp thal) = true.
Proof.
  intros H Hcp Hthal. apply session_ok_fields in H.
  destruct H as (Hage & _ & Hbp & Hchol & Hhr & Hecg & Hold & Hslope & Hca & _).
  pose proof (sex_code_binary (sex_choice w)).
  pose proof (yes_code_binary (fbs_choice w)).
  pose proof (yes_code_binary (exang_choice w)).
  unfold record_ok, int_field_in, float_field_in, column, record_of, pd_DataFrame.
  cbn [df_columns map fst snd lookup_column String.eqb Ascii.eqb Bool.eqb].
  cbv iota.
  change (PyFloat.le 0 (oldpeak_value w) && PyFloat.le (oldpeak_value w) 6.2)
    with (float_slider_ok Oldpeak (oldpeak_value w)).
  rewrite Hold.
  rewrite !andb_true_iff, !Z.leb_le. intuition lia.
Qed.

End Record.

(** C9: every record the collector builds from values the controls can
    hand back has all thirteen fields, each within its declared domain:
    sex, fbs and exang 0 or 1, cp from 0 to 3, restecg and slope from 0 to
    2, ca from 0 to 3, thal from 1 to 3, and age, trestbps, chol, thalach
    and oldpeak between the bounds of their sliders. *)
Theorem collected_record_in_domain (w : session) (p : process) :
  session_ok w = true ->
  exists df,
    user_input_features w p = (controls, p, Ok df) /\ record_ok df = true.
Proof.
  intro H.
  destruct (user_input_features_ok w H) as (cp & thal & _ & Bcp & _ & Bthal & E).
  exists (record_of w cp thal). split; [ apply E | ].
  apply record_of_ok; assumption.
Qed.

Lemma collected_record_in_domain_witness :
  exists df,
    user_input_features default_session fresh_process
    = (controls, fresh_process, Ok df)
    /\ record_ok df = true.
Proof.
  apply (collected_record_in_domain default_session fresh_process).
  vm_compute. reflexivity.
Defined.

(** C2: in the end-to-end scenario the collector and the builder produce
    the record with age 58, sex 1, cp 2, trestbps 120, chol 210, fbs 0,
    restecg 1, thalach 130, exang 0, oldpeak 1.5, slope 1, ca 0 and thal
    2; with a predictor fixed to 0.45 the run shows HIGH RISK with the
    referral to cardiology, and with a predictor fixed to 0.1 it shows LOW
    RISK with the standard follow-up. *)
Theorem end_to_end_scenario :
  let record :=
    {| df_index := [0];
       df_columns :=
         [("age", [PyInt 58]); ("sex", [PyInt 1]); ("cp", [PyInt 2]);
          ("trestbps", [PyInt 120]); ("chol", [PyInt 210]); ("fbs", [PyInt 0]);
          ("restecg", [PyInt 1]); ("thalach", [PyInt 130]); ("exang", [PyInt 0]);
          ("oldpeak", [PyFloat 1.5]); ("slope", [PyInt 1]); ("ca", [PyInt 0]);
          ("thal", [PyInt 2])] |} in
  let run prob :=
    script (Some (Pickle (PickledEstimator (stub prob)))) scenario fresh_process in
  user_input_features scenario fresh_process = (controls, fresh_process, Ok record)
  /\ fst (fst (run 0.45%float))
     = page_to_button [] record
       ++ [st_markdown "---";
           st_subheader "Assessment Result";
           in_column 0 (st_metric "Risk Probability" [Fmt 0.45%float ".1%"]);
           in_column 1 (st_error "**HIGH RISK**");
           in_column 1 (st_write "Recommendation: **Refer to Cardiology**");
           st_progress 45;
           st_caption threshold_note]
  /\ snd (run 0.45%float) = Ok tt
  /\ classify 0.45%float = (HIGH, "Refer to Cardiology")
  /\ fst (fst (run 0.1%float))
     = page_to_button [] record
       ++ [st_markdown "---";
           st_subheader "Assessment Result";
           in_column 0 (st_metric "Risk Probability" [Fmt 0.1%float ".1%"]);
           in_column 1 (st_success "**LOW RISK**");
           in_column 1 (st_write "Recommendation: **Standard Follow-up**");
           st_progress 10;
           st_caption threshold_note]
  /\ snd (run 0.1%float) = Ok tt
  /\ classify 0.1%float = (LOW, "Standard Follow-up").
Proof.
  cbv zeta. repeat split; vm_compute; reflexivity.
Qed.

(** ** The loader and the run *)

Section Run.

Lemma load_model_cached (fs : storage) (p : process) v drawn :
  cache p = Some (v, drawn) -> load_model fs p = (drawn, p, Ok v).
Proof. intro H. unfold load_model, st_cache_resource. rewrite H. reflexivity. Qed.

Lemma load_model_absent (p : process) :
  cache p = None ->
  load_model None p
  = ([st_error model_not_found_message], no_model_cached p, Ok PyNone).
Proof. intro H. unfold load_model, st_cache_resource. rewrite H. reflexivity. Qed.

(** A load that returns leaves its value in the cache, with what it drew. *)
Lemma load_model_caches (fs : storage) (p p1 : process) drew v :
  load_model fs p = (drew, p1, Ok v) -> cache p1 = Some (v, drew).
Proof.
  unfold load_model, st_cache_resource.
  destruct (cache p) as [[v0 drawn]|] eqn:Hc.
  - intro E. inversion E; subst. exact Hc.
  - destruct (load_model_body fs p) as [[out q] [a|e]]; intro E;
      inversion E; subst; reflexivity.
Qed.

(** A load failure other than a missing file leaves the loader as it
    came. *)
Lemma load_model_propagates (fs : storage) (p : process) (e : exception) :
  cache p = None ->
  snd (joblib_load fs p) = Raise e -> e <> FileNotFoundError ->
  snd (load_model fs p) = Raise e.
Proof.
  intros Hc He Hne. unfold load_model, st_cache_resource. rewrite Hc.
  unfold load_model_body, try_except.
  destruct (joblib_load fs p) as [[out q] [a|e']]; cbn in He; [ discriminate | ].
  inversion He; subst e'.
  destruct e; try congruence; reflexivity.
Qed.

Lemma script_load_raises (fs : storage) (w : session) (p p1 : process) drew e :
  load_model fs p = (drew, p1, Raise e) ->
  script fs w p = (intro ++ drew, p1, Raise e).
Proof.
  intro H. unfold script, bind, emit. rewrite H. reflexivity.
Qed.

(** The shape of a run whose load returned and whose labels hold codes. *)
Lemma script_run (fs : storage) (w : session) (p p1 : process) drew model cp thal :
  load_model fs p = (drew, p1, Ok model) ->
  label_code (cp_choice w) = Ok cp ->
  label_code (thal_choice w) = Ok thal ->
  script fs w p
  = if assess_clicked w && truth model then
      match prediction_block model (record_of w cp thal) p1 with
      | (results, p2, r) =>
          (page_to_button drew (record_of w cp thal) ++ results, p2, r)
      end
    else (page_to_button drew (record_of w cp thal), p1, Ok tt).
Proof.
  intros Hload Ecp Ethal.
  unfold script, bind, emit, button, ret. rewrite Hload.
  rewrite user_input_features_run, Ecp, Ethal.
  unfold page_to_button, page_after_loader, summary, intro.
  destruct (assess_clicked w), (truth model); cbn [andb];
    try (cbn; rewrite ?app_nil_r, <- ?app_assoc; reflexivity).
  destruct (prediction_block model (record_of w cp thal) p1)
    as [[results p2] r] eqn:Hpred.
  cbn -[prediction_block]. rewrite Hpred.
  rewrite <- ?app_assoc. reflexivity.
Qed.

(** Without an artifact every run draws the message and the page up to
    the button, and nothing else. *)
Lemma script_no_artifact (w : session) (p : process) :
  session_ok w = true ->
  cache p = None
  \/ cache p = Some (PyNone, [st_error model_not_found_message]) ->
  exists df p1,
    script None w p
    = (page_to_button [st_error model_not_found_message] df, p1, Ok tt)
    /\ cache p1 = Some (PyNone, [st_error model_not_found_message])
    /\ predictions p1 = predictions p.
Proof.
  intros Hw Hc.
  destruct (user_input_features_ok w Hw) as (cp & thal & Ecp & _ & Ethal & _ & _).
  exists (record_of w cp thal).
  destruct Hc as [Hc|Hc].
  - exists (no_model_cached p).
    rewrite (script_run None w p _ _ PyNone cp thal (load_model_absent p Hc) Ecp Ethal).
    cbn [truth]. rewrite andb_false_r. repeat split; reflexivity.
  - exists p.
    rewrite (script_run None w p _ _ PyNone cp thal
               (load_model_cached None p _ _ Hc) Ecp Ethal).
    cbn [truth]. rewrite andb_false_r.
    split; [ reflexivity | split; [ exact Hc | reflexivity ] ].
Qed.

Lemma page_no_artifact_has_no_result (df : DataFrame) :
  existsb shows_result (page_to_button [st_error model_not_found_message] df)
  = false.
Proof. reflexivity. Qed.

Lemma serve_no_artifact (ws : list session) : forall p,
  forallb session_ok ws = true ->
  cache p = None
  \/ cache p = Some (PyNone, [st_error model_not_found_message]) ->
  Forall (fun run =>
            snd run = Ok tt
            /\ In (st_error model_not_found_message) (fst run)
            /\ existsb shows_result (fst run) = false)
         (fst (serve None ws p))
  /\ List.length (fst (serve None ws p)) = List.length ws
  /\ predictions (snd (serve None ws p)) = predictions p.
Proof.
  induction ws as [|w ws IH]; intros p Hws Hc.
  - cbn. split; [ constructor | split; reflexivity ].
  - cbn [forallb] in Hws. apply andb_true_iff in Hws. destruct Hws as [Hw Hws].
    destruct (script_no_artifact w p Hw Hc) as (df & p1 & E & Hc1 & Hp1).
    cbn [serve]. rewrite E.
    destruct (IH p1 Hws (or_intror Hc1)) as (IH1 & IH2 & IH3).
    destruct (serve None ws p1) as [pages p2]. cbn [fst snd] in *.
    split; [ | split ].
    + constructor; [ | exact IH1 ]. cbn [fst snd].
      split; [ reflexivity | split ].
      * unfold page_to_button. apply in_or_app. right. left. reflexivity.
      * apply page_no_artifact_has_no_result.
    + cbn [List.length]. rewrite IH2. reflexivity.
    + rewrite IH3. exact Hp1.
Qed.

End Run.

(** C4: when the artifact path does not resolve, the load fails with
    [FileNotFoundError]; in every run of the page, the first and the later
    ones, with the button pressed or not, the error message is on the
    page, the run ends without an exception, no element of the results
    section is drawn, and no prediction is ever made. *)
Theorem missing_artifact_error_and_no_result (ws : list session) :
  forallb session_ok ws = true ->
  snd (joblib_load None fresh_process) = Raise FileNotFoundError
  /\ Forall (fun run =>
               snd run = Ok tt
               /\ In (st_error model_not_found_message) (fst run)
               /\ existsb shows_result (fst run) = false)
            (fst (serve None ws fresh_process))
  /\ List.length (fst (serve None ws fresh_process)) = List.length ws
  /\ predictions (snd (serve None ws fresh_process)) = 0%nat.
Proof.
  intro Hws. split; [ reflexivity | ].
  apply (serve_no_artifact ws fresh_process Hws). left. reflexivity.
Qed.

Lemma missing_artifact_error_and_no_result_witness :
  snd (joblib_load None fresh_process) = Raise FileNotFoundError
  /\ Forall (fun run =>
               snd run = Ok tt
               /\ In (st_error model_not_found_message) (fst run)
               /\ existsb shows_result (fst run) = false)
            (fst (serve None [default_session; scenario] fresh_process))
  /\ List.length (fst (serve None [default_session; scenario] fresh_process))
     = List.length [default_session; scenario]
  /\ predictions (snd (serve None [default_session; scenario] fresh_process))
     = 0%nat.
Proof.
  apply (missing_artifact_error_and_no_result [default_session; scenario]).
  vm_compute. reflexivity.
Defined.

(** C5, as the claim states it, fails: a file that is present and cannot
    be deserialized makes the load raise, the loader does not catch it, no
    message is drawn, and the run ends with the exception. *)
Lemma undeserializable_artifact_is_not_caught :
  snd (joblib_load (Some Garbage) fresh_process) = Raise UnpicklingError
  /\ snd (load_model (Some Garbage) fresh_process) = Raise UnpicklingError
  /\ script (Some Garbage) scenario fresh_process
     = (intro,
        {| next_id := 0; cache := None; storage_reads := 1; predictions := 0 |},
        Raise UnpicklingError).
Proof. repeat split. Qed.

(** C5, amended: the load failure of an artifact that cannot be located is
    caught at load time and surfaced as a visible message, the run ends
    without an exception, and the trigger is inert: pressed or not, no
    prediction is made and the page stops at the button.  Every other load
    failure passes through the loader and ends the run. *)
Theorem not_found_is_caught_at_load (w : session) (p : process) :
  cache p = None ->
  session_ok w = true ->
  snd (joblib_load None p) = Raise FileNotFoundError
  /\ load_model None p
     = ([st_error model_not_found_message], no_model_cached p, Ok PyNone)
  /\ (exists df,
         script None w p
         = (page_to_button [st_error model_not_found_message] df,
            no_model_cached p, Ok tt))
  /\ predictions (no_model_cached p) = predictions p
  /\ (forall fs e,
         snd (joblib_load fs p) = Raise e -> e <> FileNotFoundError ->
         snd (load_model fs p) = Raise e /\ snd (script fs w p) = Raise e).
Proof.
  intros Hc Hw. split; [ reflexivity | ].
  split; [ apply load_model_absent, Hc | ].
  split; [ | split; [ reflexivity | ] ].
  - destruct (user_input_features_ok w Hw) as (cp & thal & Ecp & _ & Ethal & _ & _).
    exists (record_of w cp thal).
    rewrite (script_run None w p _ _ PyNone cp thal (load_model_absent p Hc) Ecp Ethal).
    cbn [truth]. rewrite andb_false_r. reflexivity.
  - intros fs e He Hne.
    pose proof (load_model_propagates fs p e Hc He Hne) as Hl.
    split; [ exact Hl | ].
    destruct (load_model fs p) as [[drew p1] r] eqn:E. cbn in Hl. subst r.
    rewrite (script_load_raises fs w p p1 drew e E). reflexivity.
Qed.

Lemma not_found_is_caught_at_load_witness :
  snd (joblib_load None fresh_process) = Raise FileNotFoundError
  /\ load_model None fresh_process
     = ([st_error model_not_found_message], no_model_cached fresh_process,
        Ok PyNone)
  /\ (exists df,
         script None scenario fresh_process
         = (page_to_button [st_error model_not_found_message] df,
            no_model_cached fresh_process, Ok tt))
  /\ predictions (no_model_cached fresh_process) = predictions fresh_process
  /\ (forall fs e,
         snd (joblib_load fs fresh_process) = Raise e ->
         e <> FileNotFoundError ->
         snd (load_model fs fresh_process) = Raise e
         /\ snd (script fs scenario fresh_process) = Raise e).
Proof.
  apply (not_found_is_caught_at_load scenario fresh_process).
  - reflexivity.
  - vm_compute. reflexivity.
Defined.

(** C6: loading is idempotent within a process.  After a call of
    [load_model] that returned, a second call returns the same value, the
    same object by identity, and leaves the process as it was: the
    artifact is not read from storage again and no new object is made,
    whatever storage holds by then. *)
Theorem load_model_idempotent
  (fs fs' : storage) (p p1 : process) (drew : list element) (v : pyobj) :
  load_model fs p = (drew, p1, Ok v) ->
  load_model fs' p1 = (drew, p1, Ok v)
  /\ storage_reads (snd (fst (load_model fs' p1))) = storage_reads p1
  /\ next_id (snd (fst (load_model fs' p1))) = next_id p1.
Proof.
  intro H. apply load_model_caches in H.
  rewrite (load_model_cached fs' p1 v drew H). repeat split.
Qed.

Lemma load_model_idempotent_witness :
  let p1 := {| next_id := 1;
               cache := Some (PyRef 0 (stub 0.45%float), []);
               storage_reads := 1;
               predictions := 0 |} in
  load_model None p1 = ([], p1, Ok (PyRef 0 (stub 0.45%float)))
  /\ storage_reads (snd (fst (load_model None p1))) = storage_reads p1
  /\ next_id (snd (fst (load_model None p1))) = next_id p1.
Proof.
  apply (load_model_idempotent
           (Some (Pickle (PickledEstimator (stub 0.45%float)))) None
           fresh_process).
  reflexivity.
Defined.

(** C10: when the load returned [None], a run draws nothing after the
    button, pressed or not: no metric, no badge, no recommendation and no
    progress bar, and it ends without an exception and without a
    prediction.  Whatever the load returned, the summary of the collected
    record is drawn before the button. *)
Theorem summary_always_results_only_with_model
  (fs : storage) (w : session) (p p1 : process) (drew : list element)
  (model : pyobj) :
  session_ok w = true ->
  load_model fs p = (drew, p1, Ok model) ->
  exists df results p2 r,
    user_input_features w p1 = (controls, p1, Ok df)
    /\ script fs w p
       = (intro ++ drew ++ page_after_loader df ++ results, p2, r)
    /\ page_after_loader df
       = [sidebar_header "Patient Vitals"] ++ controls
         ++ [st_subheader "Patient Data Summary"; st_write_frame df;
             st_button "Assess Risk"]
    /\ existsb shows_result (intro ++ page_after_loader df) = false
    /\ (model = PyNone -> results = [] /\ p2 = p1 /\ r = Ok tt).
Proof.
  intros Hw Hload.
  destruct (user_input_features_ok w Hw) as (cp & thal & Ecp & _ & Ethal & _ & E).
  pose proof (script_run fs w p p1 drew model cp thal Hload Ecp Ethal) as Hrun.
  exists (record_of w cp thal).
  destruct (assess_clicked w && truth model) eqn:Hgo.
  - destruct (prediction_block model (record_of w cp thal) p1)
      as [[results p2] r] eqn:Hpred.
    exists results, p2, r. split; [ apply E | ].
    split; [ rewrite Hrun; unfold page_to_button; rewrite <- !app_assoc; reflexivity | ].
    do 2 (split; [ reflexivity | ]).
    intros ->. cbn [truth] in Hgo. rewrite andb_false_r in Hgo. discriminate.
  - exists [], p1, (Ok tt). split; [ apply E | ].
    split; [ rewrite Hrun; unfold page_to_button; rewrite app_nil_r; reflexivity | ].
    do 2 (split; [ reflexivity | ]).
    intros _. repeat split.
Qed.

Lemma summary_always_results_only_with_model_witness :
  exists df results p2 r,
    user_input_features scenario (no_model_cached fresh_process)
    = (controls, no_model_cached fresh_process, Ok df)
    /\ script None scenario fresh_process
       = (intro ++ [st_error model_not_found_message] ++ page_after_loader df
          ++ results, p2, r)
    /\ page_after_loader df
       = [sidebar_header "Patient Vitals"] ++ controls
         ++ [st_subheader "Patient Data Summary"; st_write_frame df;
             st_button "Assess Risk"]
    /\ existsb shows_result (intro ++ page_after_loader df) = false
    /\ (PyNone = PyNone ->
        results = [] /\ p2 = no_model_cached fresh_process /\ r = Ok tt).
Proof.
  apply (summary_always_results_only_with_model None scenario fresh_process
           (no_model_cached fresh_process) [st_error model_not_found_message]
           PyNone).
  - vm_compute. reflexivity.
  - reflexivity.
Defined.

(** * Further properties of the script *)

(** ** Reading a label *)

Section LabelEdges.

Import PyList PyStr.

Lemma split_nonempty (sep : ascii) (s : string) : split sep s <> [].
Proof.
  destruct s as [|c s]; cbn [split]; [ discriminate | ].
  destruct (Ascii.eqb c sep); [ discriminate | ].
  destruct (split sep s); discriminate.
Qed.

Lemma index_last_nonempty {A} (xs : list A) :
  xs <> [] -> exists x, index_last xs = Ok x.
Proof.
  induction xs as [|x xs IH]; [ congruence | ]. intros _.
  destruct xs as [|y xs]; [ exists x; reflexivity | ].
  destruct IH as (z & Hz); [ discriminate | ]. exists z. exact Hz.
Qed.

Lemma int_raises_value_error (s : string) (e : exception) :
  int s = Raise e -> e = ValueError.
Proof.
  unfold int.
  destruct (match rstrip_space (lstrip_space s) with
            | String "-" r => option_map Z.opp (int_digits 0 false r)
            | String "+" r => int_digits 0 false r
            | _ => int_digits 0 false (rstrip_space (lstrip_space s))
            end); intro H; inversion H; reflexivity.
Qed.

Lemma label_code_raises_value_error (option : string) (e : exception) :
  label_code option = Raise e -> e = ValueError.
Proof.
  unfold label_code.
  destruct (index_last_nonempty (split "(" option) (split_nonempty _ _))
    as (piece & ->).
  cbn [rbind]. apply int_raises_value_error.
Qed.

End LabelEdges.

(** X1: what is read from a label depends only on the text after an
    opening parenthesis: the wording before it, parentheses included,
    changes neither the code nor the failure. *)
Theorem label_code_ignores_wording (wording rest : string) :
  label_code (wording ++ "(" ++ rest)%string = label_code rest.
Proof.
  unfold label_code. cbn [String.append].
  rewrite index_last_split_paren. reflexivity.
Qed.

(** X2: reading a label either gives an integer or raises [ValueError];
    the subscript [-1] never fails, since [split] returns at least one
    piece. *)
Theorem label_code_value_or_value_error (option : string) :
  (exists code, label_code option = Ok code)
  \/ label_code option = Raise ValueError.
Proof.
  destruct (label_code option) as [code|e] eqn:E.
  - left. exists code. reflexivity.
  - right. rewrite (label_code_raises_value_error option e E). reflexivity.
Qed.

(** ** The prediction block *)

Section Prediction.

(** The block, step by step: one inference call is counted whatever
    comes of it; a failure of the call or of a subscript draws nothing; a
    failure of the progress bar comes after the metric and the badge. *)
Lemma prediction_block_run (id : nat) (obj : estimator) (df : DataFrame)
  (p : process) :
  prediction_block (PyRef id obj) df p
  = match positive_class_probability obj df with
    | Raise e => ([], one_more_prediction p, Raise e)
    | Ok prob =>
        match progress_value prob with
        | Ok value =>
            (result_head prob ++ [st_progress value; st_caption threshold_note],
             one_more_prediction p, Ok tt)
        | Raise e => (result_head prob, one_more_prediction p, Raise e)
        end
    end.
Proof.
  unfold prediction_block, positive_class_probability, progress_value,
    model_predict_proba, bind, lift, emit, one_more_prediction.
  destruct (predict_proba obj df) as [proba|e]; cbn [rbind]; [ | reflexivity ].
  destruct (PyList.index proba 0) as [row|e]; cbn [rbind]; [ | reflexivity ].
  destruct (PyList.index row 1) as [prob|e]; [ | reflexivity ].
  rewrite risk_column_badge.
  unfold result_head, progress.
  destruct (PyFloat.to_int (prob * 100)) as [value|e]; cbn [rbind];
    [ | reflexivity ].
  destruct ((0 <=? value) && (value <=? 100)); reflexivity.
Qed.

Lemma prediction_block_state (model : pyobj) (df : DataFrame) (p : process) :
  let p' := snd (fst (prediction_block model df p)) in
  next_id p' = next_id p /\ cache p' = cache p
  /\ storage_reads p' = storage_reads p.
Proof.
  destruct model as [|id obj]; [ repeat split | ].
  rewrite prediction_block_run.
  destruct (positive_class_probability obj df) as [prob|e]; [ | repeat split ].
  destruct (progress_value prob); repeat split.
Qed.

Lemma load_model_predictions (fs : storage) (p : process) :
  predictions (snd (fst (load_model fs p))) = predictions p.
Proof.
  unfold load_model, st_cache_resource.
  destruct (cache p) as [[v drawn]|]; [ reflexivity | ].
  destruct fs as [[[|obj]|]|]; reflexivity.
Qed.

(** A run whose load returned, on a session within the widget domains,
    with the button pressed and a truthy model. *)
Lemma script_predicts (fs : storage) (w : session) (p p1 : process)
  drew id obj :
  session_ok w = true ->
  load_model fs p = (drew, p1, Ok (PyRef id obj)) ->
  assess_clicked w = true -> est_truthy obj = true ->
  exists df,
    user_input_features w p1 = (controls, p1, Ok df)
    /\ script fs w p
       = match prediction_block (PyRef id obj) df p1 with
         | (results, p2, r) => (page_to_button drew df ++ results, p2, r)
         end.
Proof.
  intros Hw Hload Hclick Htruth.
  destruct (user_input_features_ok w Hw) as (cp & thal & Ecp & _ & Ethal & _ & E).
  exists (record_of w cp thal). split; [ apply E | ].
  rewrite (script_run fs w p p1 drew _ cp thal Hload Ecp Ethal).
  cbn [truth]. rewrite Hclick, Htruth. reflexivity.
Qed.

End Prediction.

(** ** Runs *)

Section Runs.

(** A record comes only from labels that hold codes. *)
Lemma user_input_features_returns (w : session) (p p' : process) out df :
  user_input_features w p = (out, p', Ok df) ->
  exists cp thal,
    label_code (cp_choice w) = Ok cp /\ label_code (thal_choice w) = Ok thal
    /\ df = record_of w cp thal.
Proof.
  rewrite user_input_features_run.
  destruct (label_code (cp_choice w)) as [cp|e]; [ | discriminate ].
  destruct (label_code (thal_choice w)) as [thal|e]; [ | discriminate ].
  intro H. inversion H. exists cp, thal. repeat split.
Qed.

Lemma script_run_record (fs : storage) (w : session) (p p1 p1' : process)
  drew out model df :
  load_model fs p = (drew, p1, Ok model) ->
  user_input_features w p1 = (out, p1', Ok df) ->
  script fs w p
  = if assess_clicked w && truth model then
      match prediction_block model df p1 with
      | (results, p2, r) => (page_to_button drew df ++ results, p2, r)
      end
    else (page_to_button drew df, p1, Ok tt).
Proof.
  intros Hload Hdf.
  destruct (user_input_features_returns w p1 p1' out df Hdf)
    as (cp & thal & Ecp & Ethal & ->).
  apply script_run; assumption.
Qed.

(** A run stops at a label that holds no code. *)
Lemma script_label_raises (fs : storage) (w : session) (p p1 : process)
  drew model e :
  load_model fs p = (drew, p1, Ok model) ->
  snd (user_input_features w p1) = Raise e ->
  script fs w p
  = (intro ++ drew ++ [sidebar_header "Patient Vitals"]
     ++ fst (fst (user_input_features w p1)),
     p1, Raise e).
Proof.
  intros Hload. rewrite user_input_features_run.
  unfold script, bind, emit, button, ret. rewrite Hload.
  rewrite user_input_features_run.
  destruct (label_code (cp_choice w)) as [cp|e1].
  - destruct (label_code (thal_choice w)) as [thal|e2]; cbn [snd fst];
      intro H; inversion H; subst. reflexivity.
  - cbn [snd fst]. intro H; inversion H; subst. reflexivity.
Qed.

(** After the load, a run changes nothing of the process but the count
    of predictions. *)
Lemma script_state (fs : storage) (w : session) (p : process) :
  let p1 := snd (fst (load_model fs p)) in
  let p' := snd (fst (script fs w p)) in
  next_id p' = next_id p1 /\ cache p' = cache p1
  /\ storage_reads p' = storage_reads p1.
Proof.
  destruct (load_model fs p) as [[drew p1] [model|e]] eqn:Hload; cbn [fst snd].
  - destruct (user_input_features w p1) as [[out q] [df|e]] eqn:Hdf.
    + rewrite (script_run_record fs w p p1 q drew out model df Hload Hdf).
      destruct (assess_clicked w && truth model); [ | repeat split ].
      pose proof (prediction_block_state model df p1) as Hst.
      destruct (prediction_block model df p1) as [[results p2] r].
      exact Hst.
    + assert (He : snd (user_input_features w p1) = Raise e)
        by (rewrite Hdf; reflexivity).
      rewrite (script_label_raises fs w p p1 drew model e Hload He).
      repeat split.
  - rewrite (script_load_raises fs w p p1 drew e Hload). repeat split.
Qed.

Lemma serve_cached_state (fs : storage) (ws : list session) : forall p v drawn,
  cache p = Some (v, drawn) ->
  let p' := snd (serve fs ws p) in
  next_id p' = next_id p /\ cache p' = cache p
  /\ storage_reads p' = storage_reads p.
Proof.
  induction ws as [|w ws IH]; intros p v drawn Hc; [ repeat split | ].
  cbn [serve].
  pose proof (script_state fs w p) as Hst.
  rewrite (load_model_cached fs p v drawn Hc) in Hst. cbn [fst snd] in Hst.
  destruct (script fs w p) as [[page p1] r]. cbn [fst snd] in Hst.
  destruct Hst as (H1 & H2 & H3).
  assert (Hc1 : cache p1 = Some (v, drawn)) by (rewrite H2; exact Hc).
  pose proof (IH p1 v drawn Hc1) as IH1.
  destruct (serve fs ws p1) as [pages p2]. cbn [fst snd] in *.
  destruct IH1 as (I1 & I2 & I3).
  repeat split; congruence.
Qed.

End Runs.

(** X3: when a label of the session holds no integer code, the run ends
    with [ValueError] inside the collector: the page stops at the control
    whose label failed (the third for the chest pain type, the last for
    the thalassemia type), with no summary and no button, and the process
    is left as the load left it. *)
Theorem malformed_label_stops_the_run
  (fs : storage) (w : session) (p p1 : process) (drew : list element)
  (model : pyobj) (e : exception) :
  load_model fs p = (drew, p1, Ok model) ->
  snd (user_input_features w p1) = Raise e ->
  e = ValueError
  /\ script fs w p
     = (intro ++ drew ++ [sidebar_header "Patient Vitals"]
        ++ (match label_code (cp_choice w) with
            | Raise _ => firstn 3 controls
            | Ok _ => controls
            end),
        p1, Raise ValueError).
Proof.
  intros Hload He.
  rewrite (script_label_raises fs w p p1 drew model e Hload He).
  rewrite user_input_features_run in *.
  destruct (label_code (cp_choice w)) as [cp|e1] eqn:E1.
  - destruct (label_code (thal_choice w)) as [thal|e2] eqn:E2;
      cbn [fst snd] in *; [ discriminate | ].
    inversion He; subst.
    rewrite (label_code_raises_value_error _ _ E2). split; reflexivity.
  - cbn [fst snd] in *. inversion He; subst.
    rewrite (label_code_raises_value_error _ _ E1). split; reflexivity.
Qed.

Lemma malformed_label_stops_the_run_witness :
  let w := {| age_value := 58; sex_choice := "Male";
              cp_choice := "Typical Angina"; trestbps_value := 120;
              chol_value := 210; thalach_value := 130; fbs_choice := "No";
              restecg_choice := 1; exang_choice := "No";
              oldpeak_value := 1.5%float; slope_choice := 1; ca_value := 0;
              thal_choice := "Normal (1)"; assess_clicked := true |} in
  ValueError = ValueError
  /\ script None w fresh_process
     = (intro ++ [st_error model_not_found_message]
        ++ [sidebar_header "Patient Vitals"]
        ++ (match label_code (cp_choice w) with
            | Raise _ => firstn 3 controls
            | Ok _ => controls
            end),
        no_model_cached fresh_process, Raise ValueError).
Proof.
  cbv zeta.
  apply (malformed_label_stops_the_run None _ fresh_process
           (no_model_cached fresh_process) [st_error model_not_found_message]
           PyNone ValueError).
  - reflexivity.
  - reflexivity.
Defined.

(** X4: a failure of the inference is passed on, not replaced by a
    result: when [predict_proba] raises, or what it returns has no item
    at [[0][1]], the run ends with that exception right after the button,
    nothing of the results section is drawn, and the call is counted. *)
Theorem inference_failure_propagates
  (fs : storage) (w : session) (p p1 : process) (drew : list element)
  (id : nat) (obj : estimator) (df : DataFrame) (e : exception) :
  load_model fs p = (drew, p1, Ok (PyRef id obj)) ->
  user_input_features w p1 = (controls, p1, Ok df) ->
  assess_clicked w = true ->
  est_truthy obj = true ->
  positive_class_probability obj df = Raise e ->
  script fs w p = (page_to_button drew df, one_more_prediction p1, Raise e).
Proof.
  intros Hload Hdf Hclick Htruth Hprob.
  rewrite (script_run_record fs w p p1 p1 drew controls _ df Hload Hdf).
  cbn [truth]. rewrite Hclick, Htruth. cbn [andb].
  rewrite prediction_block_run, Hprob. rewrite app_nil_r. reflexivity.
Qed.

Lemma inference_failure_propagates_witness :
  script (Some (Pickle (PickledEstimator (failing_estimator ValueError))))
    scenario fresh_process
  = (page_to_button [] (record_of scenario 2 2),
     one_more_prediction
       {| next_id := 1;
          cache := Some (PyRef 0 (failing_estimator ValueError), []);
          storage_reads := 1; predictions := 0 |},
     Raise ValueError).
Proof.
  apply (inference_failure_propagates
           (Some (Pickle (PickledEstimator (failing_estimator ValueError))))
           scenario fresh_process
           {| next_id := 1;
              cache := Some (PyRef 0 (failing_estimator ValueError), []);
              storage_reads := 1; predictions := 0 |}
           [] 0%nat (failing_estimator ValueError)
           (record_of scenario 2 2) ValueError); reflexivity.
Defined.

(** X5: with the button pressed and a truthy model, when the inference
    gives a probability whose hundredfold truncates to a value from 0 to
    100, the run draws, after the button, the rule, the heading, the
    metric, the badge and recommendation of that probability, the
    progress bar at that value and the note; it ends without exception
    and counts one prediction. *)
Theorem assessment_is_drawn
  (fs : storage) (w : session) (p p1 : process) (drew : list element)
  (id : nat) (obj : estimator) (df : DataFrame) (prob : float) (value : Z) :
  load_model fs p = (drew, p1, Ok (PyRef id obj)) ->
  user_input_features w p1 = (controls, p1, Ok df) ->
  assess_clicked w = true ->
  est_truthy obj = true ->
  positive_class_probability obj df = Ok prob ->
  progress_value prob = Ok value ->
  script fs w p
  = (page_to_button drew df ++ result_head prob
     ++ [st_progress value; st_caption threshold_note],
     one_more_prediction p1, Ok tt)
  /\ 0 <= value <= 100.
Proof.
  intros Hload Hdf Hclick Htruth Hprob Hvalue. split.
  - rewrite (script_run_record fs w p p1 p1 drew controls _ df Hload Hdf).
    cbn [truth]. rewrite Hclick, Htruth. cbn [andb].
    rewrite prediction_block_run, Hprob, Hvalue. reflexivity.
  - unfold progress_value in Hvalue.
    destruct (PyFloat.to_int (prob * 100)) as [v|e]; cbn [rbind] in Hvalue;
      [ | discriminate ].
    destruct ((0 <=? v) && (v <=? 100)) eqn:Hin; [ | discriminate ].
    inversion Hvalue; subst. apply andb_true_iff in Hin.
    rewrite !Z.leb_le in Hin. exact Hin.
Qed.

Lemma assessment_is_drawn_witness :
  script (Some (Pickle (PickledEstimator (stub 0.87%float)))) scenario
    fresh_process
  = (page_to_button [] (record_of scenario 2 2) ++ result_head 0.87%float
     ++ [st_progress 87; st_caption threshold_note],
     one_more_prediction
       {| next_id := 1; cache := Some (PyRef 0 (stub 0.87%float), []);
          storage_reads := 1; predictions := 0 |},
     Ok tt)
  /\ 0 <= 87 <= 100.
Proof.
  apply (assessment_is_drawn
           (Some (Pickle (PickledEstimator (stub 0.87%float))))
           scenario fresh_process
           {| next_id := 1; cache := Some (PyRef 0 (stub 0.87%float), []);
              storage_reads := 1; predictions := 0 |}
           [] 0%nat (stub 0.87%float)
           (record_of scenario 2 2) 0.87%float 87); reflexivity.
Defined.

(** X6: when the progress bar cannot be drawn, because the probability is
    a NaN or infinite, or its hundredfold truncates outside 0 to 100, the
    run ends with that exception after the metric, the badge and the
    recommendation are on the page, and without the bar and the note. *)
Theorem progress_failure_after_badge
  (fs : storage) (w : session) (p p1 : process) (drew : list element)
  (id : nat) (obj : estimator) (df : DataFrame) (prob : float)
  (e : exception) :
  load_model fs p = (drew, p1, Ok (PyRef id obj)) ->
  user_input_features w p1 = (controls, p1, Ok df) ->
  assess_clicked w = true ->
  est_truthy obj = true ->
  positive_class_probability obj df = Ok prob ->
  progress_value prob = Raise e ->
  script fs w p
  = (page_to_button drew df ++ result_head prob, one_more_prediction p1,
     Raise e).
Proof.
  intros Hload Hdf Hclick Htruth Hprob Hvalue.
  rewrite (script_run_record fs w p p1 p1 drew controls _ df Hload Hdf).
  cbn [truth]. rewrite Hclick, Htruth. cbn [andb].
  rewrite prediction_block_run, Hprob, Hvalue. reflexivity.
Qed.

Lemma progress_failure_after_badge_witness :
  script (Some (Pickle (PickledEstimator (stub 1.5%float)))) scenario
    fresh_process
  = (page_to_button [] (record_of scenario 2 2) ++ result_head 1.5%float,
     one_more_prediction
       {| next_id := 1; cache := Some (PyRef 0 (stub 1.5%float), []);
          storage_reads := 1; predictions := 0 |},
     Raise StreamlitAPIException).
Proof.
  apply (progress_failure_after_badge
           (Some (Pickle (PickledEstimator (stub 1.5%float))))
           scenario fresh_process
           {| next_id := 1; cache := Some (PyRef 0 (stub 1.5%float), []);
              storage_reads := 1; predictions := 0 |}
           [] 0%nat (stub 1.5%float)
           (record_of scenario 2 2) 1.5%float StreamlitAPIException);
    reflexivity.
Defined.

(** X7: a run calls the predictor only on the trigger: it makes exactly
    one prediction when the button is pressed and the loaded model is
    truthy, and none otherwise, whatever the loader returned and whatever
    comes of the prediction. *)
Theorem one_prediction_per_trigger
  (fs : storage) (w : session) (p p1 : process) (drew : list element)
  (model : pyobj) (df : DataFrame) :
  load_model fs p = (drew, p1, Ok model) ->
  user_input_features w p1 = (controls, p1, Ok df) ->
  predictions (snd (fst (script fs w p)))
  = (predictions p + (if assess_clicked w && truth model then 1 else 0))%nat.
Proof.
  intros Hload Hdf.
  pose proof (load_model_predictions fs p) as Hp. rewrite Hload in Hp.
  cbn [fst snd] in Hp.
  rewrite (script_run_record fs w p p1 p1 drew controls model df Hload Hdf).
  destruct (assess_clicked w && truth model) eqn:Hgo.
  - destruct model as [|id obj];
      [ cbn [truth] in Hgo; rewrite andb_false_r in Hgo; discriminate | ].
    rewrite prediction_block_run.
    destruct (positive_class_probability obj df) as [prob|e];
      [ destruct (progress_value prob) | ];
      cbn [fst snd one_more_prediction predictions]; lia.
  - cbn [fst snd]. lia.
Qed.

Lemma one_prediction_per_trigger_witness :
  predictions
    (snd (fst (script (Some (Pickle (PickledEstimator (stub 0.45%float))))
                 default_session fresh_process)))
  = (predictions fresh_process
     + (if assess_clicked default_session
           && truth (PyRef 0 (stub 0.45%float))
        then 1 else 0))%nat.
Proof.
  apply (one_prediction_per_trigger
           (Some (Pickle (PickledEstimator (stub 0.45%float))))
           default_session fresh_process
           {| next_id := 1; cache := Some (PyRef 0 (stub 0.45%float), []);
              storage_reads := 1; predictions := 0 |}
           [] (PyRef 0 (stub 0.45%float))
           (record_of default_session 2 2)); reflexivity.
Defined.

(** X8: the missing model sticks for the life of the process.  After a
    run that found no artifact, every later run draws the same error and
    no result, pressed or not, and leaves the process as it is, whatever
    storage holds by then, a valid artifact included. *)
Theorem missing_model_sticks
  (fs' : storage) (w w' : session) (p : process) :
  cache p = None ->
  session_ok w = true ->
  session_ok w' = true ->
  let p1 := snd (fst (script None w p)) in
  exists df,
    script fs' w' p1
    = (page_to_button [st_error model_not_found_message] df, p1, Ok tt).
Proof.
  intros Hc Hw Hw' p1.
  assert (Hc1 : cache p1 = Some (PyNone, [st_error model_not_found_message])).
  { subst p1.
    destruct (script_no_artifact w p Hw (or_introl Hc)) as (df & q & E & Hq & _).
    rewrite E. exact Hq. }
  destruct (user_input_features_ok w' Hw') as (cp & thal & Ecp & _ & Ethal & _ & _).
  exists (record_of w' cp thal).
  rewrite (script_run fs' w' p1 _ _ PyNone cp thal
             (load_model_cached fs' p1 _ _ Hc1) Ecp Ethal).
  cbn [truth]. rewrite andb_false_r. reflexivity.
Qed.

Lemma missing_model_sticks_witness :
  let p1 := snd (fst (script None default_session fresh_process)) in
  exists df,
    script (Some (Pickle (PickledEstimator (stub 0.45%float)))) scenario p1
    = (page_to_button [st_error model_not_found_message] df, p1, Ok tt).
Proof.
  apply (missing_model_sticks
           (Some (Pickle (PickledEstimator (stub 0.45%float))))
           default_session scenario fresh_process).
  - reflexivity.
  - vm_compute. reflexivity.
  - vm_compute. reflexivity.
Defined.

(** X9: a load that raises stores nothing.  It has drawn nothing, the
    cache stays empty, and the next call reads storage again: with a
    valid artifact there by then, it returns a new object and stores
    it. *)
Theorem raising_load_is_retried
  (fs : storage) (p p1 : process) (drew : list element) (e : exception)
  (obj : estimator) :
  cache p = None ->
  load_model fs p = (drew, p1, Raise e) ->
  drew = []
  /\ cache p1 = None
  /\ storage_reads p1 = S (storage_reads p)
  /\ load_model (Some (Pickle (PickledEstimator obj))) p1
     = ([],
        {| next_id := S (next_id p);
           cache := Some (PyRef (next_id p) obj, []);
           storage_reads := S (S (storage_reads p));
           predictions := predictions p |},
        Ok (PyRef (next_id p) obj)).
Proof.
  intros Hc Hload.
  unfold load_model, st_cache_resource in Hload. rewrite Hc in Hload.
  destruct fs as [[[|obj0]|]|]; cbn in Hload; try discriminate.
  inversion Hload; subst. cbn [cache storage_reads].
  repeat split; try assumption.
  unfold load_model, st_cache_resource. cbn [cache]. rewrite Hc. reflexivity.
Qed.

Lemma raising_load_is_retried_witness :
  ([] : list element) = []
  /\ cache {| next_id := 0; cache := None; storage_reads := 1;
              predictions := 0 |} = None
  /\ storage_reads {| next_id := 0; cache := None; storage_reads := 1;
                      predictions := 0 |}
     = S (storage_reads fresh_process)
  /\ load_model (Some (Pickle (PickledEstimator (stub 0.45%float))))
       {| next_id := 0; cache := None; storage_reads := 1; predictions := 0 |}
     = ([],
        {| next_id := S (next_id fresh_process);
           cache := Some (PyRef (next_id fresh_process) (stub 0.45%float), []);
           storage_reads := S (S (storage_reads fresh_process));
           predictions := predictions fresh_process |},
        Ok (PyRef (next_id fresh_process) (stub 0.45%float))).
Proof.
  apply (raising_load_is_retried (Some Garbage) fresh_process
           {| next_id := 0; cache := None; storage_reads := 1;
              predictions := 0 |}
           [] UnpicklingError (stub 0.45%float)); reflexivity.
Defined.

(** X10: with a pickle at the artifact path, the artifact is read from
    storage once for all the runs of a process, whatever the sessions
    are and whatever comes of each run: after any number of runs, one or
    more, storage was read once, at most one object was made, and the
    cache holds the loaded value. *)
Theorem artifact_read_once
  (content : pickled) (w : session) (ws : list session) :
  let p' := snd (serve (Some (Pickle content)) (w :: ws) fresh_process) in
  storage_reads p' = 1%nat
  /\ (next_id p' <= 1)%nat
  /\ exists v, cache p' = Some (v, []).
Proof.
  cbv zeta. cbn [serve].
  pose proof (script_state (Some (Pickle content)) w fresh_process) as Hst.
  cbv zeta in Hst.
  destruct (script (Some (Pickle content)) w fresh_process) as [[page p1] r].
  cbn [fst snd] in Hst.
  assert (Hload : exists v,
             cache (snd (fst (load_model (Some (Pickle content)) fresh_process)))
             = Some (v, [])
             /\ storage_reads
                  (snd (fst (load_model (Some (Pickle content)) fresh_process)))
                = 1%nat
             /\ (next_id
                   (snd (fst (load_model (Some (Pickle content)) fresh_process)))
                 <= 1)%nat).
  { destruct content as [|obj]; eexists; cbn; repeat split; lia. }
  destruct Hload as (v & L1 & L2 & L3).
  destruct Hst as (H1 & H2 & H3).
  assert (Hc1 : cache p1 = Some (v, [])) by congruence.
  pose proof (serve_cached_state (Some (Pickle content)) ws p1 v [] Hc1) as Hs.
  cbv zeta in Hs.
  destruct (serve (Some (Pickle content)) ws p1) as [pages p2].
  cbn [fst snd] in *. destruct Hs as (S1 & S2 & S3).
  split; [ congruence | ]. split; [ lia | ].
  exists v. congruence.
Qed.

(** ** The record and the inference *)



